(** * bidderd: the auction decision path of the RTBKIT fixed-price bidder

    A shallow embedding of the agent source (the [Agent] type,
    [RegisterAgent], [DoBid], [externalIdsFromRequest],
    [emptyResponseWithOneSeat]) and of [fastHandleAuctions] from [main.go],
    followed by the properties of the specification that concern them.

    Conventions.
    - A Go [int] is a [Z]; the one place the code does arithmetic on it
      ([agent.bidId += 1]) has its 64-bit wrap-around written out.
    - A [float64] read from JSON is carried as the rational it denotes.
    - A decoded [interface{}] is a [json] value; [JNull] is the nil interface.
    - A run-time panic is the [Panic] outcome; nothing in the repository
      recovers from one, so it ends the computation.
    - [json.Unmarshal] and [json.Marshal] are library code: the handler is
      modelled from the result of the former up to the argument of the
      latter. *)

From Stdlib Require Import ZArith QArith Lia.
From stdpp Require Import gmap strings list fin_maps pretty.

#[local] Set Warnings "-register-all".
#[local] Open Scope Z_scope.

(** ** Go values *)

(** [float64]: the finite values, as rationals. *)
Abbreviation float64 := Q (only parsing).

Definition min_int : Z := - 2 ^ 63.
Definition max_int : Z := 2 ^ 63 - 1.

(** Two's complement wrap-around of a 64-bit [int]. *)
Definition int_wrap (z : Z) : Z := (z + 2 ^ 63) mod 2 ^ 64 - 2 ^ 63.

(** [int(f)] for a [float64]: the fraction is discarded (truncation towards
    zero).  Outside the range of [int] the language leaves the result to the
    implementation; amd64 yields the smallest [int]. *)
Definition Go_int (f : float64) : Z :=
  let t := Z.quot (Qnum f) (Z.pos (Qden f)) in
  if (min_int <=? t) && (t <=? max_int) then t else min_int.

(** [float64(z)] for a small integer constant. *)
Definition Go_float64 (z : Z) : float64 := inject_Z z.

(** [strconv.Itoa]. *)
Definition Itoa (z : Z) : string := pretty z.

(** A value of type [interface{}] as [encoding/json] decodes it. *)
Inductive json : Type :=
| JNull
| JBool (b : bool)
| JNum (f : float64)
| JStr (s : string)
| JArr (l : list json)
| JObj (m : gmap string json).

(** ** Panics and the outcome of a computation *)

Inductive panic : Set :=
| NilDereference          (* invalid memory address or nil pointer dereference *)
| InterfaceConversion     (* x.(T) on a nil interface or on another dynamic type *)
| IndexOutOfRange         (* s[i] with i outside [0, len(s)) *)
| InvalidArgumentToIntn.  (* rand.Intn(n) with n <= 0 *)

Inductive outcome (A : Type) : Type :=
| Done (a : A)
| Panic (p : panic).
Arguments Done {A} a.
Arguments Panic {A} p.

Definition bind {A B : Type} (m : outcome A) (k : A -> outcome B) : outcome B :=
  match m with
  | Done a => k a
  | Panic p => Panic p
  end.

Notation "'let*' x ':=' m 'in' k" := (bind m (fun x => k))
  (at level 10, x pattern, m at level 100, k at level 200).

(** A [for _, x := range l] loop whose body may panic. *)
Fixpoint foldM {A B : Type} (body : A -> B -> outcome A) (l : list B) (a : A)
  : outcome A :=
  match l with
  | [] => Done a
  | x :: rest => let* a' := body a x in foldM body rest a'
  end.

(** [m[k]] on a Go map with [interface{}] values: an absent key reads as nil. *)
Definition go_index `{Countable K} (m : gmap K json) (k : K) : json :=
  default JNull (m !! k).

(** [s[i]] on a slice. *)
Definition slice_index {A : Type} (s : list A) (i : Z) : outcome A :=
  if (0 <=? i) && (i <? Z.of_nat (length s)) then
    match s !! Z.to_nat i with
    | Some x => Done x
    | None => Panic IndexOutOfRange
    end
  else Panic IndexOutOfRange.

(** The type assertions of the source. *)
Definition as_slice (v : json) : outcome (list json) :=      (* v.([]interface{}) *)
  match v with JArr l => Done l | _ => Panic InterfaceConversion end.

Definition as_map (v : json) : outcome (gmap string json) := (* v.(map[string]interface{}) *)
  match v with JObj m => Done m | _ => Panic InterfaceConversion end.

Definition as_float64 (v : json) : outcome float64 :=        (* v.(float64) *)
  match v with JNum f => Done f | _ => Panic InterfaceConversion end.

Definition as_interface (v : json) : outcome json :=         (* v.(interface{}) *)
  match v with JNull => Panic InterfaceConversion | _ => Done v end.

(** [rand.Intn(n)] on the shared source.  The source is a tape of raw draws
    and the number of draws already made; every value of [[0, n)] is the
    result for some tape. *)
Definition rand_Intn (tape : nat -> Z) (pos : nat) (n : Z) : outcome (Z * nat) :=
  if n <=? 0 then Panic InvalidArgumentToIntn
  else Done (tape pos mod n, S pos).

(** ** The agent source: data *)

Record Creative : Type := {
  Format : string;
  Id : Z;
  CreativeName : string          (* Creative.Name *)
}.

Record AgentConfig : Type := {
  Account : list string;
  Augmentations : option string; (* *json.RawMessage *)
  BidControl : option string;    (* *json.RawMessage *)
  BidProbability : float64;
  Creatives : list Creative;
  ErrorFormat : string;
  External : bool;
  ExternalId : Z;
  LossFormat : string;
  MinTimeAvailableMs : float64;
  WinFormat : string
}.

Record Agent : Type := {
  Name : string;
  Config : AgentConfig;
  Price : float64;
  Period : Z;
  Balance : Z;
  registered : bool;
  pacer : option nat;            (* chan bool; nil until StartPacer *)
  bidId : Z
}.

Definition set_registered (b : bool) (agent : Agent) : Agent :=
  {| Name := Name agent; Config := Config agent; Price := Price agent;
     Period := Period agent; Balance := Balance agent;
     registered := b; pacer := pacer agent; bidId := bidId agent |}.

Definition set_bidId (n : Z) (agent : Agent) : Agent :=
  {| Name := Name agent; Config := Config agent; Price := Price agent;
     Period := Period agent; Balance := Balance agent;
     registered := registered agent; pacer := pacer agent; bidId := n |}.

(** [creativesKey{ImpId, ExtId}]. *)
Abbreviation creativesKey := (string * Z)%type (only parsing).

(** ** openrtb: the fields the bidder touches

    The library's types, as the source uses them: an impression's [Ext] is
    indexed by string and its values are type-asserted, a bid's [Ext] receives
    the bytes of a marshalled map, a response has an [ID] and a slice of
    seats, each with a slice of bids. *)

Record Impression : Type := {
  imp_ID : string;
  imp_Ext : gmap string json     (* nil reads as the empty map *)
}.

Record BidRequest : Type := {
  req_ID : string;
  req_Imp : list Impression
}.

Record Bid : Type := {
  bid_ID : string;
  bid_ImpID : string;
  bid_CreativeID : string;
  bid_Price : float64;
  bid_Ext : gmap string json     (* the map handed to json.Marshal *)
}.

Record SeatBid : Type := {
  seat_Bid : list Bid
}.

Record BidResponse : Type := {
  res_ID : string;
  res_SeatBid : list SeatBid
}.

(** ** The agent source: RegisterAgent *)

(** What the HTTP layer does with the registration call. *)
Inductive http_exchange : Set :=
| RequestInvalid   (* http.NewRequest returned a nil request *)
| DoError          (* httpClient.Do returned an error *)
| DoResponse.      (* httpClient.Do returned a response *)

Definition RegisterAgent (agent : Agent) (net : http_exchange) : outcome Agent :=
  match net with
  | RequestInvalid => Panic NilDereference      (* req.Header.Add on nil *)
  | DoError => Done agent                       (* log and return *)
  | DoResponse => Done (set_registered true agent)
  end.

Definition UnregisterAgent (agent : Agent) (net : http_exchange) : outcome Agent :=
  match net with
  | RequestInvalid => Panic NilDereference
  | DoError => Done agent
  | DoResponse => Done (set_registered false agent)
  end.

(** ** The agent source: externalIdsFromRequest *)

(** Body of the inner loop, for one element of ["external-ids"]. *)
Definition externalIds_extID (imp : Impression)
    (ids : gmap creativesKey json) (extID : json)
  : outcome (gmap creativesKey json) :=
  let* f := as_float64 extID in
  let key := (imp_ID imp, Go_int f) in
  let* m := as_map (go_index (imp_Ext imp) "creative-ids") in
  let creatives := go_index m (Itoa (Go_int f)) in
  let* c := as_interface creatives in
  Done (<[key := c]> ids).

(** Body of the outer loop, for one impression. *)
Definition externalIds_imp (ids : gmap creativesKey json) (imp : Impression)
  : outcome (gmap creativesKey json) :=
  let* extIDs := as_slice (go_index (imp_Ext imp) "external-ids") in
  foldM (externalIds_extID imp) extIDs ids.

(** [req] is a pointer: [None] is nil. *)
Definition externalIdsFromRequest (req : option BidRequest)
  : outcome (gmap creativesKey json) :=
  match req with
  | None => Panic NilDereference                (* req.Imp *)
  | Some r => foldM externalIds_imp (req_Imp r) ∅
  end.

(** ** The agent source: emptyResponseWithOneSeat *)

Definition emptyResponseWithOneSeat (req : BidRequest) : BidResponse :=
  let seat := {| seat_Bid := [] |} in
  let seatbid := [seat] in
  {| res_ID := req_ID req; res_SeatBid := seatbid |}.

(** ** The agent source: DoBid *)

(** [res.SeatBid[0].Bid = append(res.SeatBid[0].Bid, bid)] *)
Definition append_bid (res : BidResponse) (bid : Bid) : outcome BidResponse :=
  match res_SeatBid res with
  | [] => Panic IndexOutOfRange
  | seat :: others =>
      Done {| res_ID := res_ID res;
              res_SeatBid := {| seat_Bid := seat_Bid seat ++ [bid] |} :: others |}
  end.

(** [map[string]interface{}{"priority": 1.0, "external-id": agent.Config.ExternalId}] *)
Definition bid_ext (agent : Agent) : gmap string json :=
  <["priority" := JNum (Go_float64 1)]>
    (<["external-id" := JNum (Go_float64 (ExternalId (Config agent)))]> ∅).

(** The state the loop of [DoBid] works on: the agent (its counter), the
    shared response and the number of random draws made so far. *)
Abbreviation bid_state := (Agent * BidResponse * nat)%type (only parsing).

(** Body of the loop of [DoBid], for one impression. *)
Definition DoBid_imp (tape : nat -> Z) (ids : gmap creativesKey json)
    (st : bid_state) (imp : Impression) : outcome bid_state :=
  let '(agent, res, pos) := st in
  let key := (imp_ID imp, ExternalId (Config agent)) in
  match go_index ids key with
  | JNull => Done st                            (* continue *)
  | v =>
      let* creativeList := as_slice v in
      let* (n, pos') := rand_Intn tape pos (Z.of_nat (length creativeList)) in
      let* picked := slice_index creativeList n in
      let* f := as_float64 picked in
      let cridx := Go_int f in
      let* creative := slice_index (Creatives (Config agent)) cridx in
      let crid := Itoa (Id creative) in
      let bidId' := Itoa (bidId agent) in
      let price := Price agent in
      let bid := {| bid_ID := bidId'; bid_ImpID := imp_ID imp;
                    bid_CreativeID := crid; bid_Price := price;
                    bid_Ext := bid_ext agent |} in
      let agent' := set_bidId (int_wrap (bidId agent + 1)) agent in
      let* res' := append_bid res bid in
      Done (agent', res', pos')
  end.

Definition DoBid (tape : nat -> Z) (agent : Agent) (req : BidRequest)
    (res : BidResponse) (ids : gmap creativesKey json) (pos : nat)
  : outcome (Agent * BidResponse * bool * nat) :=
  let* (agent', res', pos') := foldM (DoBid_imp tape ids) (req_Imp req) (agent, res, pos) in
  let* seat := slice_index (res_SeatBid res') 0 in
  Done (agent', res', 0 <? Z.of_nat (length (seat_Bid seat)), pos').

(** ** main.go: fastHandleAuctions *)

(** [json.Unmarshal(ctx.PostBody(), &req)] with [req] a nil pointer before
    the call: an error, or success with [req] left nil (the body [null]) or
    pointing to the decoded request. *)
Inductive unmarshal_result : Type :=
| UnmarshalErr
| Unmarshalled (req : option BidRequest).

(** What the handler leaves in [ctx]. *)
Record RequestCtx : Type := {
  StatusCode : Z;
  Header : list (string * string);
  Body : option BidResponse      (* the value serialised into the body *)
}.

Definition fresh_ctx : RequestCtx :=
  {| StatusCode := 200; Header := []; Body := None |}.

(** The process state the handler runs in. *)
Record World : Type := {
  agents : list Agent;           (* the slice captured by the handler *)
  rand_pos : nat;                (* draws made on the shared source *)
  incoming : nat                 (* the counter behind BidIncoming() *)
}.

(** Body of [for _, agent := range agents]: [agent] is a copy of the slice
    element, and the copy [DoBid] updates is dropped at the end of the
    iteration. *)
Definition auction_agent (tape : nat -> Z) (req : BidRequest)
    (ids : gmap creativesKey json)
    (st : BidResponse * bool * nat) (agent : Agent)
  : outcome (BidResponse * bool * nat) :=
  let '(res, ok, pos) := st in
  let* (_, res', tmpOk, pos') := DoBid tape agent req res ids pos in
  Done (res', tmpOk || ok, pos').

Definition fastHandleAuctions (tape : nat -> Z) (parsed : unmarshal_result)
    (w : World) : outcome (RequestCtx * World) :=
  let ok := true in
  match parsed with
  | UnmarshalErr =>
      Done ({| StatusCode := 204; Header := Header fresh_ctx;
               Body := Body fresh_ctx |}, w)
  | Unmarshalled req =>
      let* ids := externalIdsFromRequest req in
      match req with
      | None => Panic NilDereference
      | Some r =>
          let res := emptyResponseWithOneSeat r in
          let* (res', ok', pos') :=
            foldM (auction_agent tape r ids) (agents w) (res, ok, rand_pos w) in
          let w' := {| agents := agents w; rand_pos := pos';
                       incoming := S (incoming w) |} in
          if ok' then
            Done ({| StatusCode := 200;
                     Header := [("Content-type", "application/json");
                                ("x-openrtb-version", "2.1")];
                     Body := Some res' |}, w')
          else
            Done ({| StatusCode := 204; Header := Header fresh_ctx;
                     Body := Body fresh_ctx |}, w')
      end
  end.

(** ** Derived notions used by the statements *)

(** The bids of the first seat of a response. *)
Definition seat0_bids (res : BidResponse) : list Bid :=
  match res_SeatBid res with
  | [] => []
  | seat :: _ => seat_Bid seat
  end.

(** [res] with [new] appended to its first seat. *)
Definition add_bids (res : BidResponse) (new : list Bid) : BidResponse :=
  match res_SeatBid res with
  | [] => res
  | seat :: others =>
      {| res_ID := res_ID res;
         res_SeatBid := {| seat_Bid := seat_Bid seat ++ new |} :: others |}
  end.

(** The counter after [k] executions of [agent.bidId += 1]. *)
Definition counter_after (k : nat) (c : Z) : Z :=
  Nat.iter k (fun z => int_wrap (z + 1)) c.

Definition is_nil (v : json) : bool :=
  match v with JNull => true | _ => false end.

(** Does the index hold candidates for this agent on this impression? *)
Definition eligible (ids : gmap creativesKey json) (agent : Agent)
    (imp : Impression) : bool :=
  negb (is_nil (go_index ids (imp_ID imp, ExternalId (Config agent)))).

(** The (agent, impression) pair a bid stands for: the external id its
    extension carries and its impression id. *)
Definition bid_pair (b : Bid) : json * string :=
  (go_index (bid_Ext b) "external-id", bid_ImpID b).

(** The pairs the index makes eligible, in seat order: agent configuration
    order, then impression order. *)
Definition decided_pairs (l : list Agent) (req : BidRequest)
    (ids : gmap creativesKey json) : list (json * string) :=
  concat (map (fun agent =>
                 map (fun imp => (JNum (Go_float64 (ExternalId (Config agent))),
                                  imp_ID imp))
                     (List.filter (eligible ids agent) (req_Imp req)))
              l).

(** The agent loop of the handler, observed through the pairs that bid. *)
Definition auction_pairs (tape : nat -> Z) (l : list Agent) (req : BidRequest)
    (ids : gmap creativesKey json) (pos : nat) : outcome (list (json * string)) :=
  let* (res', _, _) :=
    foldM (auction_agent tape req ids) l (emptyResponseWithOneSeat req, true, pos) in
  Done (map bid_pair (seat0_bids res')).

(** An impression whose extension data [externalIdsFromRequest] can read:
    ["external-ids"] is a list, and every element of it is a number for which
    ["creative-ids"] is a mapping with a non-null entry under its decimal
    spelling. *)
Definition extID_ok (ext : gmap string json) (extID : json) : bool :=
  match extID with
  | JNum f =>
      match go_index ext "creative-ids" with
      | JObj m => negb (is_nil (go_index m (Itoa (Go_int f))))
      | _ => false
      end
  | _ => false
  end.

Definition imp_ext_ok (imp : Impression) : bool :=
  match go_index (imp_Ext imp) "external-ids" with
  | JArr extIDs => forallb (extID_ok (imp_Ext imp)) extIDs
  | _ => false
  end.

(** The bid [DoBid] composes for [imp] once the creative is resolved. *)
Definition composed_bid (agent : Agent) (imp : Impression) (creative : Creative)
  : Bid :=
  {| bid_ID := Itoa (bidId agent); bid_ImpID := imp_ID imp;
     bid_CreativeID := Itoa (Id creative); bid_Price := Price agent;
     bid_Ext := bid_ext agent |}.

(** [bid] is what [agent] composes when its counter stands at [c]: the
    counter as identifier, the configured price, the static extension, and
    the id of a creative that one of the candidates for the bid's impression
    indexes in the agent's [Creatives]. *)
Definition well_composed (agent : Agent) (ids : gmap creativesKey json)
    (c : Z) (bid : Bid) : Prop :=
  bid_ID bid = Itoa c /\
  bid_Price bid = Price agent /\
  bid_Ext bid = bid_ext agent /\
  exists (l : list json) (f : float64) (creative : Creative),
    go_index ids (bid_ImpID bid, ExternalId (Config agent)) = JArr l /\
    JNum f ∈ l /\
    0 <= Go_int f < Z.of_nat (length (Creatives (Config agent))) /\
    Creatives (Config agent) !! Z.to_nat (Go_int f) = Some creative /\
    bid_CreativeID bid = Itoa (Id creative).

(** The bids a call of [DoBid] has appended, from the response before and
    after it. *)
Definition placed_by_call (res res' : BidResponse) : list Bid :=
  drop (length (seat0_bids res)) (seat0_bids res').

(** An index entry [DoBid] can serve for [agent] whatever is drawn: no entry,
    or a non-empty list of numbers that index the agent's [Creatives]. *)
Definition candidate_ok (agent : Agent) (v : json) : bool :=
  match v with
  | JNum f =>
      (0 <=? Go_int f) && (Go_int f <? Z.of_nat (length (Creatives (Config agent))))
  | _ => false
  end.

Definition entry_ok (agent : Agent) (v : json) : bool :=
  match v with
  | JNull => true
  | JArr [] => false
  | JArr l => forallb (candidate_ok agent) l
  | _ => false
  end.

Definition index_ok (ids : gmap creativesKey json) (req : BidRequest)
    (agent : Agent) : bool :=
  forallb (fun imp => entry_ok agent (go_index ids (imp_ID imp, ExternalId (Config agent))))
          (req_Imp req).

(** The outcome of [DoBid] with [g] applied to the agent it leaves. *)
Definition on_agent (g : Agent -> Agent)
    (r : outcome (Agent * BidResponse * bool * nat))
  : outcome (Agent * BidResponse * bool * nat) :=
  match r with
  | Done (agent, res, b, pos) => Done (g agent, res, b, pos)
  | Panic p => Panic p
  end.

(** The request restricted to the impressions whose extension data is
    readable. *)
Definition readable_part (req : BidRequest) : BidRequest :=
  {| req_ID := req_ID req; req_Imp := List.filter imp_ext_ok (req_Imp req) |}.

(** ** Sample data: the scenarios of the specification *)

Module Sample.

Definition config (extId : Z) (crs : list Creative) : AgentConfig :=
  {| Account := ["hello"; "world"]; Augmentations := None; BidControl := None;
     BidProbability := 1; Creatives := crs; ErrorFormat := "lightweight";
     External := false; ExternalId := extId; LossFormat := "lightweight";
     MinTimeAvailableMs := 5; WinFormat := "full" |}.

Definition agent (extId : Z) (crs : list Creative) : Agent :=
  {| Name := "my_http_config"; Config := config extId crs; Price := (3 # 2)%Q;
     Period := 30000; Balance := 1000000;
     registered := false; pacer := None; bidId := 0 |}.

Definition creative5 : Creative :=
  {| Format := "728x90"; Id := 5; CreativeName := "LeaderBoard" |}.

(** One agent, externalId 42, creatives [{id:5}], price 1.5. *)
Definition agent42 : Agent := agent 42 [creative5].
(** The same agent under externalId 99. *)
Definition agent99 : Agent := agent 99 [creative5].

(** [{"external-ids":[e],"creative-ids":{"<e>":cands}}] *)
Definition ext (e : Z) (cands : list json) : gmap string json :=
  <["external-ids" := JArr [JNum (Go_float64 e)]]>
    (<["creative-ids" := JObj (<[Itoa e := JArr cands]> ∅)]> ∅).

Definition imp (id : string) (cands : list json) : Impression :=
  {| imp_ID := id; imp_Ext := ext 42 cands |}.

(** [{"id":"r1","imp":[{"id":"1","ext":{"external-ids":[42],"creative-ids":{"42":[0]}}}]}] *)
Definition r1 : BidRequest :=
  {| req_ID := "r1"; req_Imp := [imp "1" [JNum (Go_float64 0)]] |}.

Definition world (l : list Agent) : World :=
  {| agents := l; rand_pos := 0; incoming := 0 |}.

(** Two random tapes. *)
Definition zeros : nat -> Z := fun _ => 0.
Definition ones : nat -> Z := fun _ => 1.

(** The index of a request, empty when it cannot be built. *)
Definition ids_of (req : BidRequest) : gmap creativesKey json :=
  match externalIdsFromRequest (Some req) with
  | Done ids => ids
  | Panic _ => ∅
  end.

(** A response that already holds the bid of [agent42] on [r1]. *)
Definition res_after_agent42 : BidResponse :=
  add_bids (emptyResponseWithOneSeat r1)
           [composed_bid agent42 (imp "1" [JNum (Go_float64 0)]) creative5].

(** An impression without extension data, followed by a readable one. *)
Definition r_bare : BidRequest :=
  {| req_ID := "r2";
     req_Imp := [ {| imp_ID := "1"; imp_Ext := ∅ |};
                  imp "2" [JNum (Go_float64 0)] ] |}.

(** The candidates name creative 7; the agents have one creative. *)
Definition r_seven : BidRequest :=
  {| req_ID := "r3"; req_Imp := [imp "1" [JNum (Go_float64 7)]] |}.

(** Candidates 0 and 7: which one is drawn depends on the tape. *)
Definition r_mixed : BidRequest :=
  {| req_ID := "r4";
     req_Imp := [imp "1" [JNum (Go_float64 0); JNum (Go_float64 7)]] |}.

(** An entry that is present and empty. *)
Definition r_empty : BidRequest :=
  {| req_ID := "r5"; req_Imp := [imp "1" []] |}.

End Sample.

(** ** The agent source: StartPacer and StopPacer *)

(** [time.Millisecond], in nanoseconds. *)
Definition Millisecond : Z := 1000000.

(** [strings.Join]. *)
Fixpoint Join (elems : list string) (sep : string) : string :=
  match elems with
  | [] => ""
  | [x] => x
  | x :: rest => x +:+ sep +:+ Join rest sep
  end.

(** The double quote character. *)
Definition dquote : string := String (Ascii.ascii_of_nat 34) EmptyString.

(** What [StartPacer] has set up when its [go] statement is reached: the
    agent with its stop channel, the interval of the ticker in nanoseconds,
    and the request every tick posts.  The ticks themselves run concurrently
    and are outside this model. *)
Record pacer_setup : Type := {
  paced_agent : Agent;
  ticker_interval : Z;
  pacing_url : string;
  pacing_body : string
}.

(** [time.NewTicker] panics on a non-positive interval. *)
Inductive pacer_start : Type :=
| NonPositiveInterval
| PacerStarted (setup : pacer_setup).

Definition set_pacer (ch : option nat) (agent : Agent) : Agent :=
  {| Name := Name agent; Config := Config agent; Price := Price agent;
     Period := Period agent; Balance := Balance agent;
     registered := registered agent; pacer := ch; bidId := bidId agent |}.

(** [ch] is the channel [make(chan bool)] returns. *)
Definition StartPacer (agent : Agent) (bankerIp : string) (bankerPort : Z)
    (ch : nat) : pacer_start :=
  let accounts := Account (Config agent) in
  let url := "http://" +:+ bankerIp +:+ ":" +:+ Itoa bankerPort
             +:+ "/v1/accounts/" +:+ Join accounts ":" +:+ "/balance" in
  let body := "{" +:+ dquote +:+ "USD/1M" +:+ dquote +:+ ": "
              +:+ Itoa (Balance agent) +:+ "}" in
  let d := int_wrap (Period agent * Millisecond) in
  if d <=? 0 then NonPositiveInterval
  else PacerStarted {| paced_agent := set_pacer (Some ch) agent;
                       ticker_interval := d;
                       pacing_url := url; pacing_body := body |}.

(** [close(agent.pacer)], given the channels closed so far. *)
Inductive pacer_stop : Type :=
| CloseOfNilChannel
| CloseOfClosedChannel
| PacerStopped (closed : gset nat).

Definition StopPacer (agent : Agent) (closed : gset nat) : pacer_stop :=
  match pacer agent with
  | None => CloseOfNilChannel
  | Some ch =>
      if bool_decide (ch ∈ closed) then CloseOfClosedChannel
      else PacerStopped ({[ch]} ∪ closed)
  end.

(** ** What the index holds *)

(** Does a list of external ids name [e], once each id is converted as the
    source converts it? *)
Definition lists (extIDs : list json) (e : Z) : bool :=
  existsb (fun x => match x with JNum f => bool_decide (Go_int f = e) | _ => false end)
          extIDs.

Definition imp_lists (imp : Impression) (e : Z) : bool :=
  match go_index (imp_Ext imp) "external-ids" with
  | JArr extIDs => lists extIDs e
  | _ => false
  end.

(** The candidates an impression gives for the external id [e]. *)
Definition imp_entry (imp : Impression) (e : Z) : json :=
  match go_index (imp_Ext imp) "creative-ids" with
  | JObj m => go_index m (Itoa e)
  | _ => JNull
  end.

(** The entry under [(i, e)] after the impressions [imps] have been read
    over an entry [acc]: that of the last impression with id [i] that
    lists [e]. *)
Fixpoint entry_after (imps : list Impression) (i : string) (e : Z)
    (acc : option json) : option json :=
  match imps with
  | [] => acc
  | imp :: rest =>
      entry_after rest i e
        (if bool_decide (i = imp_ID imp) && imp_lists imp e
         then Some (imp_entry imp e) else acc)
  end.

(** The bids [g] are what [agent] contributes to a round on [req]: one per
    eligible impression, in impression order, each composed from the counter
    the agent is configured with, advanced once per earlier bid. *)
Definition agent_bids (ids : gmap creativesKey json) (req : BidRequest)
    (agent : Agent) (g : list Bid) : Prop :=
  map bid_ImpID g = map imp_ID (List.filter (eligible ids agent) (req_Imp req)) /\
  forall (k : nat) (bid : Bid),
    g !! k = Some bid ->
    well_composed agent ids (counter_after k (bidId agent)) bid.

(** The identifiers of [n] bids placed in a row from the counter [c]. *)
Fixpoint identifiers_from (c : Z) (n : nat) : list string :=
  match n with
  | O => []
  | S n' => Itoa c :: identifiers_from (int_wrap (c + 1)) n'
  end.

(** The headers of a bid answer. *)
Definition bid_headers : list (string * string) :=
  [("Content-type", "application/json"); ("x-openrtb-version", "2.1")].

(** An index entry that leaves the random draw no choice: anything but a
    list of two or more candidates. *)
Definition at_most_one_candidate (v : json) : bool :=
  match v with
  | JArr (_ :: _ :: _) => false
  | _ => true
  end.

(** The largest period, in milliseconds, whose nanoseconds fit an [int64]. *)
Definition max_period : Z := 9223372036854.

(** * Properties *)

(** Split a conjunction into its parts, without introducing anything. *)
Ltac conjs := repeat match goal with |- _ /\ _ => split end.

(** ** The outcome monad and the loops *)

Lemma bind_Done_inv {A B : Type} (m : outcome A) (k : A -> outcome B) (b : B) :
  bind m k = Done b -> exists a, m = Done a /\ k a = Done b.
Proof. destruct m as [a|p]; simpl; [eauto | discriminate]. Qed.

Lemma bind_Panic_inv {A B : Type} (m : outcome A) (k : A -> outcome B) (p : panic) :
  bind m k = Panic p -> m = Panic p \/ exists a, m = Done a /\ k a = Panic p.
Proof. destruct m as [a|q]; simpl; [eauto | intros [= ->]; auto]. Qed.

Lemma foldM_app {A B : Type} (body : A -> B -> outcome A) (l1 l2 : list B) (a : A) :
  foldM body (l1 ++ l2) a = bind (foldM body l1 a) (foldM body l2).
Proof.
  revert a; induction l1 as [|x l1 IH]; intros a; simpl; [reflexivity|].
  destruct (body a x) as [a'|p]; simpl; [apply IH | reflexivity].
Qed.

(** A panic in one iteration is the panic of the loop. *)
Lemma foldM_Panic_at {A B : Type} (body : A -> B -> outcome A)
    (pre post : list B) (x : B) (a a1 : A) (p : panic) :
  foldM body pre a = Done a1 -> body a1 x = Panic p ->
  foldM body (pre ++ x :: post) a = Panic p.
Proof.
  intros Hpre Hx. rewrite foldM_app, Hpre. simpl. rewrite Hx. reflexivity.
Qed.

(** A loop panics when, under an invariant of its body, the body panics on
    some element of the list. *)
Lemma foldM_Panic_elem {A B : Type} (body : A -> B -> outcome A) (I : A -> Prop)
    (l : list B) (x : B) (a : A) :
  (forall a1 y a2, I a1 -> body a1 y = Done a2 -> I a2) ->
  In x l -> (forall a', I a' -> exists p, body a' x = Panic p) -> I a ->
  exists p, foldM body l a = Panic p.
Proof.
  intros Hinv Hin Hx. revert a. induction l as [|y l IH]; intros a Ia; [destruct Hin|].
  simpl. destruct Hin as [->|Hin].
  - destruct (Hx a Ia) as [p ->]. simpl. eauto.
  - destruct (body a y) as [a'|p] eqn:Hy; simpl; [|eauto].
    apply IH; [exact Hin | eapply Hinv; eauto].
Qed.

Lemma counter_after_succ (k : nat) (c : Z) :
  counter_after k (int_wrap (c + 1)) = counter_after (S k) c.
Proof. unfold counter_after. rewrite Nat.iter_succ_r. reflexivity. Qed.

Lemma slice_index_Done {A : Type} (s : list A) (i : Z) (x : A) :
  slice_index s i = Done x <->
  0 <= i < Z.of_nat (length s) /\ s !! Z.to_nat i = Some x.
Proof.
  unfold slice_index.
  destruct (0 <=? i) eqn:H0; destruct (i <? Z.of_nat (length s)) eqn:H1; simpl;
    try (split; [discriminate | intros [? _]; lia]).
  destruct (s !! Z.to_nat i) as [y|] eqn:Hy.
  - split; [intros [= ->]; split; [lia | reflexivity] | intros [_ [= ->]]; reflexivity].
  - split; [discriminate | intros [_ ?]; discriminate].
Qed.

Lemma slice_index_out {A : Type} (s : list A) (i : Z) :
  ~ (0 <= i < Z.of_nat (length s)) -> slice_index s i = Panic IndexOutOfRange.
Proof.
  intros H. unfold slice_index.
  destruct (0 <=? i) eqn:H0; destruct (i <? Z.of_nat (length s)) eqn:H1; simpl;
    try reflexivity.
  exfalso; apply H; lia.
Qed.

Lemma rand_Intn_Done (tape : nat -> Z) (pos : nat) (n r : Z) (pos' : nat) :
  rand_Intn tape pos n = Done (r, pos') ->
  0 < n /\ r = tape pos mod n /\ 0 <= r < n /\ pos' = S pos.
Proof.
  unfold rand_Intn. destruct (n <=? 0) eqn:Hn; [discriminate|].
  intros [= <- <-]. assert (0 < n) by lia.
  repeat split; try lia; apply Z.mod_pos_bound; lia.
Qed.

(** ** One iteration of the loop of [DoBid] *)

Section DoBid_step.
Variables (tape : nat -> Z) (ids : gmap creativesKey json).
Variables (agent : Agent) (res : BidResponse) (pos : nat) (imp : Impression).

Let key : creativesKey := (imp_ID imp, ExternalId (Config agent)).

Lemma DoBid_imp_skip :
  eligible ids agent imp = false ->
  DoBid_imp tape ids (agent, res, pos) imp = Done (agent, res, pos).
Proof.
  unfold eligible, DoBid_imp. fold key.
  destruct (go_index ids key); simpl; intros H; try discriminate; reflexivity.
Qed.

Lemma DoBid_imp_Done_inv (st' : bid_state) :
  DoBid_imp tape ids (agent, res, pos) imp = Done st' ->
  (eligible ids agent imp = false /\ st' = (agent, res, pos)) \/
  (eligible ids agent imp = true /\
   exists l f c,
     go_index ids key = JArr l /\
     (0 < length l)%nat /\
     l !! Z.to_nat (tape pos mod Z.of_nat (length l)) = Some (JNum f) /\
     0 <= Go_int f < Z.of_nat (length (Creatives (Config agent))) /\
     Creatives (Config agent) !! Z.to_nat (Go_int f) = Some c /\
     res_SeatBid res <> [] /\
     st' = (set_bidId (int_wrap (bidId agent + 1)) agent,
            add_bids res [composed_bid agent imp c], S pos)).
Proof.
  unfold eligible, DoBid_imp. fold key.
  destruct (go_index ids key) as [| | | |l|] eqn:Hk; simpl;
    try discriminate; [intros [= <-]; left; auto|].
  intros H. right. split; [reflexivity|].
  apply bind_Done_inv in H as ([n pos1] & Hr & H).
  apply rand_Intn_Done in Hr as (Hlen & -> & Hn & ->).
  apply bind_Done_inv in H as (picked & Hp & H).
  apply slice_index_Done in Hp as [_ Hp].
  apply bind_Done_inv in H as (f & Hf & H).
  destruct picked; simpl in Hf; try discriminate. injection Hf as ->.
  apply bind_Done_inv in H as (c & Hc & H).
  apply slice_index_Done in Hc as [Hrange Hc].
  apply bind_Done_inv in H as (res1 & Hres & H).
  injection H as <-.
  unfold append_bid in Hres. unfold add_bids.
  destruct (res_SeatBid res) as [|seat others] eqn:Hs; [discriminate|].
  injection Hres as <-.
  exists l, f, c. repeat split; try assumption; try lia; discriminate.
Qed.

(** Choosing an index outside the agent's [Creatives] panics. *)
Lemma DoBid_imp_out_of_range (l : list json) (f : float64) :
  go_index ids key = JArr l ->
  l !! Z.to_nat (tape pos mod Z.of_nat (length l)) = Some (JNum f) ->
  ~ (0 <= Go_int f < Z.of_nat (length (Creatives (Config agent)))) ->
  DoBid_imp tape ids (agent, res, pos) imp = Panic IndexOutOfRange.
Proof.
  intros Hk Hl Hout. unfold DoBid_imp. fold key. rewrite Hk. simpl.
  assert (Hlen : (0 < length l)%nat).
  { apply lookup_lt_Some in Hl. lia. }
  unfold rand_Intn.
  destruct (Z.of_nat (length l) <=? 0) eqn:Hle; [lia|]. simpl.
  assert (Hm := Z.mod_pos_bound (tape pos) (Z.of_nat (length l)) ltac:(lia)).
  assert (Hp : slice_index l (tape pos mod Z.of_nat (length l)) = Done (JNum f)).
  { apply slice_index_Done. split; [lia | assumption]. }
  rewrite Hp. simpl. rewrite (slice_index_out _ _ Hout). reflexivity.
Qed.

(** Selecting among zero candidates panics. *)
Lemma DoBid_imp_no_candidates :
  go_index ids key = JArr [] ->
  DoBid_imp tape ids (agent, res, pos) imp = Panic InvalidArgumentToIntn.
Proof. intros Hk. unfold DoBid_imp. fold key. rewrite Hk. reflexivity. Qed.

End DoBid_step.

(** ** The loop of [DoBid] *)

Lemma set_bidId_same (agent : Agent) : set_bidId (bidId agent) agent = agent.
Proof. destruct agent; reflexivity. Qed.

Lemma add_bids_nil (res : BidResponse) : add_bids res [] = res.
Proof.
  destruct res as [id seats]. unfold add_bids. simpl.
  destruct seats as [|[bids] others]; simpl; [reflexivity|].
  rewrite app_nil_r. reflexivity.
Qed.

Lemma add_bids_cons (res : BidResponse) (b : Bid) (new : list Bid) :
  add_bids (add_bids res [b]) new = add_bids res (b :: new).
Proof.
  destruct res as [id seats]. unfold add_bids. simpl.
  destruct seats as [|[bids] others]; simpl; [reflexivity|].
  rewrite <- app_assoc. reflexivity.
Qed.

Lemma seat0_bids_add (res : BidResponse) (new : list Bid) :
  res_SeatBid res <> [] -> seat0_bids (add_bids res new) = seat0_bids res ++ new.
Proof.
  unfold seat0_bids, add_bids.
  destruct (res_SeatBid res) as [|seat others]; [congruence | reflexivity].
Qed.

(** What a completed run of the loop has done: the bids [new] were appended,
    one per eligible impression and in impression order, each composed from
    the counter value current at its turn; the counter advanced once per bid
    and one random draw was made per bid. *)
Lemma DoBid_loop_spec (tape : nat -> Z) (ids : gmap creativesKey json)
    (imps : list Impression) :
  forall (agent : Agent) (res : BidResponse) (pos : nat)
         (agent' : Agent) (res' : BidResponse) (pos' : nat),
    foldM (DoBid_imp tape ids) imps (agent, res, pos) = Done (agent', res', pos') ->
    exists new : list Bid,
      agent' = set_bidId (counter_after (length new) (bidId agent)) agent /\
      res' = add_bids res new /\
      (new <> [] -> res_SeatBid res <> []) /\
      pos' = (pos + length new)%nat /\
      map bid_ImpID new = map imp_ID (List.filter (eligible ids agent) imps) /\
      forall (k : nat) (bid : Bid),
        new !! k = Some bid ->
        well_composed agent ids (counter_after k (bidId agent)) bid.
Proof.
  induction imps as [|imp imps IH]; intros agent res pos agent' res' pos' H.
  - injection H as <- <- <-. exists []. simpl.
    rewrite set_bidId_same, add_bids_nil.
    conjs; try congruence; try lia. intros k bid Hk. discriminate.
  - simpl in H. apply bind_Done_inv in H as ([[a1 r1] p1] & Hstep & Hrest).
    apply DoBid_imp_Done_inv in Hstep
      as [[Hel Hst] | [Hel (l & f & c & Hk & Hlen & Hl & Hrange & Hc & Hseat & Hst)]];
      injection Hst as -> -> ->.
    + destruct (IH _ _ _ _ _ _ Hrest) as (new & Ha & Hr & Hne & Hp & Hm & Hall).
      exists new. simpl. rewrite Hel. auto 10.
    + destruct (IH _ _ _ _ _ _ Hrest) as (new & Ha & Hr & Hne & Hp & Hm & Hall).
      exists (composed_bid agent imp c :: new). simpl. rewrite Hel.
      simpl in Ha. rewrite counter_after_succ in Ha.
      rewrite add_bids_cons in Hr.
      conjs; try assumption; try lia.
      * intros _. exact Hseat.
      * simpl. f_equal. exact Hm.
      * intros [|k] bid Hb; simpl in Hb.
        -- injection Hb as <-. unfold well_composed; simpl.
           conjs; try reflexivity. exists l, f, c. conjs; try assumption; try lia; try reflexivity.
           apply list_elem_of_lookup. eauto.
        -- specialize (Hall k bid Hb). simpl in Hall.
           rewrite counter_after_succ in Hall. exact Hall.
Qed.

(** ** [DoBid] *)

(** A completed call: the loop ran as [DoBid_loop_spec] says, the response
    has a first seat, and the flag tells whether that seat holds a bid. *)
Lemma DoBid_spec (tape : nat -> Z) (agent : Agent) (req : BidRequest)
    (res : BidResponse) (ids : gmap creativesKey json) (pos : nat)
    (agent' : Agent) (res' : BidResponse) (b : bool) (pos' : nat) :
  DoBid tape agent req res ids pos = Done (agent', res', b, pos') ->
  exists new : list Bid,
    res_SeatBid res <> [] /\
    agent' = set_bidId (counter_after (length new) (bidId agent)) agent /\
    res' = add_bids res new /\
    pos' = (pos + length new)%nat /\
    b = (0 <? Z.of_nat (length (seat0_bids res ++ new))) /\
    map bid_ImpID new = map imp_ID (List.filter (eligible ids agent) (req_Imp req)) /\
    forall (k : nat) (bid : Bid),
      new !! k = Some bid ->
      well_composed agent ids (counter_after k (bidId agent)) bid.
Proof.
  unfold DoBid. intros H.
  apply bind_Done_inv in H as ([[a1 r1] p1] & Hloop & H).
  apply bind_Done_inv in H as (seat & Hseat & H).
  injection H as <- <- <- <-.
  apply DoBid_loop_spec in Hloop as (new & Ha & Hr & _ & Hp & Hm & Hall).
  apply slice_index_Done in Hseat as [_ Hseat].
  assert (Hne : res_SeatBid res <> []).
  { intros He. rewrite Hr in Hseat. unfold add_bids in Hseat.
    rewrite He in Hseat. rewrite He in Hseat. discriminate. }
  exists new. conjs; try assumption.
  rewrite <- (seat0_bids_add res new Hne), <- Hr.
  unfold seat0_bids. destruct (res_SeatBid r1); [discriminate|].
  injection Hseat as ->. reflexivity.
Qed.

Lemma bid_ext_lookup (agent : Agent) :
  bid_ext agent !! "priority" = Some (JNum (Go_float64 1)) /\
  bid_ext agent !! "external-id"
    = Some (JNum (Go_float64 (ExternalId (Config agent)))).
Proof.
  unfold bid_ext. split.
  - apply lookup_insert_eq.
  - rewrite lookup_insert_ne by discriminate. apply lookup_insert_eq.
Qed.

(** C2, as amended.  The flag [DoBid] returns tells whether the first seat
    of the shared response holds at least one bid once the agent is done,
    whoever placed it; when the seat was empty on entry, that is whether
    this agent placed a bid. *)
Theorem DoBid_flag_reports_seat (tape : nat -> Z) (agent : Agent)
    (req : BidRequest) (res : BidResponse) (ids : gmap creativesKey json)
    (pos : nat) (agent' : Agent) (res' : BidResponse) (b : bool) (pos' : nat) :
  DoBid tape agent req res ids pos = Done (agent', res', b, pos') ->
  (b = true <-> seat0_bids res' <> []) /\
  exists new : list Bid,
    seat0_bids res' = seat0_bids res ++ new /\
    (seat0_bids res = [] -> (b = true <-> new <> [])).
Proof.
  intros H. apply DoBid_spec in H as (new & Hne & _ & Hr & _ & Hb & _).
  assert (Hs : seat0_bids res' = seat0_bids res ++ new).
  { rewrite Hr. apply seat0_bids_add, Hne. }
  assert (Hflag : forall l : list Bid,
             (0 <? Z.of_nat (length l)) = true <-> l <> []).
  { intros [|x l]; simpl length; split; intros Hl.
    - discriminate Hl.
    - congruence.
    - discriminate.
    - apply Z.ltb_lt. lia. }
  split.
  - rewrite Hs, Hb. apply Hflag.
  - exists new. split; [exact Hs|]. intros He. rewrite Hb, He. apply Hflag.
Qed.

Lemma DoBid_flag_reports_seat_witness :
  (true = true <-> seat0_bids Sample.res_after_agent42 <> []) /\
  exists new : list Bid,
    seat0_bids Sample.res_after_agent42
      = seat0_bids (emptyResponseWithOneSeat Sample.r1) ++ new /\
    (seat0_bids (emptyResponseWithOneSeat Sample.r1) = [] ->
     (true = true <-> new <> [])).
Proof.
  apply (DoBid_flag_reports_seat Sample.zeros Sample.agent42 Sample.r1
           (emptyResponseWithOneSeat Sample.r1) (Sample.ids_of Sample.r1) 0
           (set_bidId 1 Sample.agent42) Sample.res_after_agent42 true 1).
  vm_compute. reflexivity.
Defined.

(** C2, as stated, fails: served after [agent42] has bid, [agent99] finds no
    eligible impression and appends nothing, yet its flag is [true]. *)
Lemma DoBid_flag_counts_earlier_bids :
  ~ (forall (agent' : Agent) (res' : BidResponse) (b : bool) (pos' : nat),
       DoBid Sample.zeros Sample.agent99 Sample.r1 Sample.res_after_agent42
             (Sample.ids_of Sample.r1) 0
         = Done (agent', res', b, pos') ->
       (b = true <-> placed_by_call Sample.res_after_agent42 res' <> [])).
Proof.
  intros H.
  assert (E : DoBid Sample.zeros Sample.agent99 Sample.r1 Sample.res_after_agent42
                    (Sample.ids_of Sample.r1) 0
              = Done (Sample.agent99, Sample.res_after_agent42, true, 0%nat))
    by (vm_compute; reflexivity).
  apply H in E as [E _]. apply (E eq_refl). vm_compute. reflexivity.
Qed.

(** C7.  Every bid a completed [DoBid] has placed carries the agent's
    counter as it stood before the increment (string-encoded), the id of its
    impression, the id of the creative resolved from a candidate of that
    impression (string-encoded), the agent's configured price, and an
    extension with the static priority 1 and the agent's external id; the
    bids follow the eligible impressions in order and the counter ends
    advanced once per bid. *)
Theorem DoBid_composes_bids (tape : nat -> Z) (agent : Agent)
    (req : BidRequest) (res : BidResponse) (ids : gmap creativesKey json)
    (pos : nat) (agent' : Agent) (res' : BidResponse) (b : bool) (pos' : nat) :
  DoBid tape agent req res ids pos = Done (agent', res', b, pos') ->
  exists new : list Bid,
    seat0_bids res' = seat0_bids res ++ new /\
    bidId agent' = counter_after (length new) (bidId agent) /\
    map bid_ImpID new
      = map imp_ID (List.filter (eligible ids agent) (req_Imp req)) /\
    forall (k : nat) (bid : Bid),
      new !! k = Some bid ->
      well_composed agent ids (counter_after k (bidId agent)) bid /\
      bid_Ext bid !! "priority" = Some (JNum (Go_float64 1)) /\
      bid_Ext bid !! "external-id"
        = Some (JNum (Go_float64 (ExternalId (Config agent)))).
Proof.
  intros H. apply DoBid_spec in H as (new & Hne & Ha & Hr & _ & _ & Hm & Hall).
  exists new. conjs.
  - rewrite Hr. apply seat0_bids_add, Hne.
  - rewrite Ha. reflexivity.
  - exact Hm.
  - intros k bid Hk. specialize (Hall k bid Hk).
    split; [exact Hall|]. destruct Hall as (_ & _ & -> & _).
    apply bid_ext_lookup.
Qed.

Lemma DoBid_composes_bids_witness :
  exists new : list Bid,
    seat0_bids Sample.res_after_agent42
      = seat0_bids (emptyResponseWithOneSeat Sample.r1) ++ new /\
    bidId (set_bidId 1 Sample.agent42)
      = counter_after (length new) (bidId Sample.agent42) /\
    map bid_ImpID new
      = map imp_ID (List.filter (eligible (Sample.ids_of Sample.r1) Sample.agent42)
                                (req_Imp Sample.r1)) /\
    forall (k : nat) (bid : Bid),
      new !! k = Some bid ->
      well_composed Sample.agent42 (Sample.ids_of Sample.r1)
                    (counter_after k (bidId Sample.agent42)) bid /\
      bid_Ext bid !! "priority" = Some (JNum (Go_float64 1)) /\
      bid_Ext bid !! "external-id"
        = Some (JNum (Go_float64 (ExternalId (Config Sample.agent42)))).
Proof.
  apply (DoBid_composes_bids Sample.zeros Sample.agent42 Sample.r1
           (emptyResponseWithOneSeat Sample.r1) (Sample.ids_of Sample.r1) 0
           (set_bidId 1 Sample.agent42) Sample.res_after_agent42 true 1).
  vm_compute. reflexivity.
Defined.

(** The loop never touches the agent's configuration. *)
Lemma DoBid_imp_Config (tape : nat -> Z) (ids : gmap creativesKey json)
    (st st' : bid_state) (imp : Impression) :
  DoBid_imp tape ids st imp = Done st' ->
  Config (st'.1.1) = Config (st.1.1).
Proof.
  destruct st as [[agent res] pos]. intros H.
  apply DoBid_imp_Done_inv in H as [[_ ->] | [_ (l & f & c & H)]]; [reflexivity|].
  destruct H as (_ & _ & _ & _ & _ & _ & ->). reflexivity.
Qed.

(** C4, as amended.  When the candidate drawn for an impression is not an
    index into the agent's [Creatives], [DoBid] panics with an index out of
    range as soon as its loop reaches that impression: the bid is not
    skipped and nothing is returned. *)
Theorem DoBid_out_of_range_panics (tape : nat -> Z) (agent : Agent)
    (req : BidRequest) (res : BidResponse) (ids : gmap creativesKey json)
    (pos : nat) (pre post : list Impression) (imp : Impression)
    (a1 : Agent) (r1 : BidResponse) (p1 : nat) (l : list json) (f : float64) :
  req_Imp req = pre ++ imp :: post ->
  foldM (DoBid_imp tape ids) pre (agent, res, pos) = Done (a1, r1, p1) ->
  go_index ids (imp_ID imp, ExternalId (Config agent)) = JArr l ->
  l !! Z.to_nat (tape p1 mod Z.of_nat (length l)) = Some (JNum f) ->
  ~ (0 <= Go_int f < Z.of_nat (length (Creatives (Config agent)))) ->
  DoBid tape agent req res ids pos = Panic IndexOutOfRange.
Proof.
  intros Hreq Hpre Hk Hl Hout. unfold DoBid. rewrite Hreq.
  assert (Ha : a1 = set_bidId (bidId a1) agent).
  { apply DoBid_loop_spec in Hpre as (new & -> & _). reflexivity. }
  rewrite (foldM_Panic_at _ pre post imp _ _ IndexOutOfRange Hpre); [reflexivity|].
  rewrite Ha. apply (DoBid_imp_out_of_range tape ids _ r1 p1 imp l f); assumption.
Qed.

Lemma DoBid_out_of_range_panics_witness :
  DoBid Sample.zeros Sample.agent42 Sample.r_seven
        (emptyResponseWithOneSeat Sample.r_seven) (Sample.ids_of Sample.r_seven) 0
    = Panic IndexOutOfRange.
Proof.
  apply (DoBid_out_of_range_panics Sample.zeros Sample.agent42 Sample.r_seven
           (emptyResponseWithOneSeat Sample.r_seven) (Sample.ids_of Sample.r_seven)
           0 [] [] (Sample.imp "1" [JNum (Go_float64 7)])
           Sample.agent42 (emptyResponseWithOneSeat Sample.r_seven) 0
           [JNum (Go_float64 7)] (Go_float64 7)).
  - reflexivity.
  - reflexivity.
  - vm_compute. reflexivity.
  - reflexivity.
  - vm_compute. intros [_ H]. discriminate H.
Defined.

(** C4, as stated, fails: with candidate 7 and a single creative, [DoBid]
    does not complete. *)
Lemma DoBid_out_of_range_not_skipped :
  ~ (exists r,
       DoBid Sample.zeros Sample.agent42 Sample.r_seven
             (emptyResponseWithOneSeat Sample.r_seven)
             (Sample.ids_of Sample.r_seven) 0 = Done r).
Proof.
  intros [r H]. vm_compute in H. discriminate H.
Qed.

(** C10.  An impression whose entry in the index is present and empty makes
    [DoBid] panic instead of being skipped: the call does not complete, and
    when the loop reaches the impression the panic is that of [rand.Intn]
    on zero candidates.  So a call completes only if every present
    candidate list it meets is non-empty. *)
Theorem DoBid_empty_candidates_panics (tape : nat -> Z) (agent : Agent)
    (req : BidRequest) (res : BidResponse) (ids : gmap creativesKey json)
    (pos : nat) (imp : Impression) :
  In imp (req_Imp req) ->
  go_index ids (imp_ID imp, ExternalId (Config agent)) = JArr [] ->
  (exists p, DoBid tape agent req res ids pos = Panic p) /\
  (forall (pre post : list Impression) (st : bid_state),
     req_Imp req = pre ++ imp :: post ->
     foldM (DoBid_imp tape ids) pre (agent, res, pos) = Done st ->
     DoBid tape agent req res ids pos = Panic InvalidArgumentToIntn).
Proof.
  intros Hin Hk. split.
  - destruct (foldM_Panic_elem (DoBid_imp tape ids)
                (fun st => Config (st.1.1) = Config agent)
                (req_Imp req) imp (agent, res, pos)) as [p Hp].
    + intros st1 y st2 Hi Hy. rewrite (DoBid_imp_Config _ _ _ _ _ Hy). exact Hi.
    + exact Hin.
    + intros [[a r] q] Hi. simpl in Hi. exists InvalidArgumentToIntn.
      apply DoBid_imp_no_candidates. rewrite Hi. exact Hk.
    + reflexivity.
    + exists p. unfold DoBid. rewrite Hp. reflexivity.
  - intros pre post [[a1 r1] p1] Hreq Hpre. unfold DoBid. rewrite Hreq.
    rewrite (foldM_Panic_at _ pre post imp _ _ InvalidArgumentToIntn Hpre);
      [reflexivity|].
    apply DoBid_imp_no_candidates.
    apply DoBid_loop_spec in Hpre as (new & -> & _). exact Hk.
Qed.

Lemma DoBid_empty_candidates_panics_witness :
  (exists p, DoBid Sample.zeros Sample.agent42 Sample.r_empty
                   (emptyResponseWithOneSeat Sample.r_empty)
                   (Sample.ids_of Sample.r_empty) 0 = Panic p) /\
  (forall (pre post : list Impression) (st : bid_state),
     req_Imp Sample.r_empty = pre ++ Sample.imp "1" [] :: post ->
     foldM (DoBid_imp Sample.zeros (Sample.ids_of Sample.r_empty)) pre
           (Sample.agent42, emptyResponseWithOneSeat Sample.r_empty, 0%nat)
       = Done st ->
     DoBid Sample.zeros Sample.agent42 Sample.r_empty
           (emptyResponseWithOneSeat Sample.r_empty)
           (Sample.ids_of Sample.r_empty) 0 = Panic InvalidArgumentToIntn).
Proof.
  apply (DoBid_empty_candidates_panics Sample.zeros Sample.agent42 Sample.r_empty
           (emptyResponseWithOneSeat Sample.r_empty) (Sample.ids_of Sample.r_empty)
           0 (Sample.imp "1" [])).
  - simpl. left. reflexivity.
  - vm_compute. reflexivity.
Defined.

(** ** Registration *)

Lemma DoBid_imp_registered (tape : nat -> Z) (ids : gmap creativesKey json)
    (flag : bool) (agent : Agent) (res : BidResponse) (pos : nat)
    (imp : Impression) :
  DoBid_imp tape ids (set_registered flag agent, res, pos) imp
  = match DoBid_imp tape ids (agent, res, pos) imp with
    | Done (a, r, p) => Done (set_registered flag a, r, p)
    | Panic p => Panic p
    end.
Proof.
  unfold DoBid_imp. simpl.
  destruct (go_index ids (imp_ID imp, ExternalId (Config agent)))
    as [| | | |l|]; simpl; try reflexivity.
  destruct (rand_Intn tape pos (Z.of_nat (length l))) as [[n pos1]|]; simpl;
    [|reflexivity].
  destruct (slice_index l n) as [picked|]; simpl; [|reflexivity].
  destruct (as_float64 picked) as [f|]; simpl; [|reflexivity].
  destruct (slice_index (Creatives (Config agent)) (Go_int f)) as [c|]; simpl;
    [|reflexivity].
  unfold append_bid. destruct (res_SeatBid res); reflexivity.
Qed.

Lemma DoBid_loop_registered (tape : nat -> Z) (ids : gmap creativesKey json)
    (flag : bool) (imps : list Impression) :
  forall (agent : Agent) (res : BidResponse) (pos : nat),
    foldM (DoBid_imp tape ids) imps (set_registered flag agent, res, pos)
    = match foldM (DoBid_imp tape ids) imps (agent, res, pos) with
      | Done (a, r, p) => Done (set_registered flag a, r, p)
      | Panic p => Panic p
      end.
Proof.
  induction imps as [|imp imps IH]; intros agent res pos; [reflexivity|].
  cbn [foldM]. rewrite DoBid_imp_registered.
  destruct (DoBid_imp tape ids (agent, res, pos) imp) as [[[a r] p]|]; cbn [bind];
    [apply IH | reflexivity].
Qed.

(** C9.  When the outbound call of [RegisterAgent] fails the agent is left
    exactly as it was, its [registered] flag included; and [DoBid] does not
    look at the flag: with the flag set either way it panics or completes
    alike, with the same response, result and random draws, and leaves the
    same agent up to that flag. *)
Theorem registration_does_not_gate_bidding (agent : Agent) :
  RegisterAgent agent DoError = Done agent /\
  (forall (flag : bool) (tape : nat -> Z) (req : BidRequest) (res : BidResponse)
          (ids : gmap creativesKey json) (pos : nat),
     DoBid tape (set_registered flag agent) req res ids pos
     = on_agent (set_registered flag) (DoBid tape agent req res ids pos)).
Proof.
  split; [reflexivity|]. intros flag tape req res ids pos.
  unfold DoBid. rewrite DoBid_loop_registered.
  destruct (foldM (DoBid_imp tape ids) (req_Imp req) (agent, res, pos))
    as [[[a r] p]|]; simpl; [|reflexivity].
  destruct (slice_index (res_SeatBid r) 0); reflexivity.
Qed.

(** ** The handler *)

(** C5.  When the body does not parse, the handler answers 204 with no
    header and no body, and leaves the process as it found it: the agents
    (their counters included), the random source and the statistics are
    untouched, and no panic is raised. *)
Theorem fastHandleAuctions_unparsable (tape : nat -> Z) (w : World) :
  fastHandleAuctions tape UnmarshalErr w
  = Done ({| StatusCode := 204; Header := []; Body := None |}, w).
Proof. reflexivity. Qed.

(** The flag of the handler's loop starts at [true] and stays there. *)
Lemma auction_loop_ok (tape : nat -> Z) (req : BidRequest)
    (ids : gmap creativesKey json) (l : list Agent) :
  forall (res : BidResponse) (pos : nat) (res' : BidResponse) (ok' : bool)
         (pos' : nat),
    foldM (auction_agent tape req ids) l (res, true, pos) = Done (res', ok', pos') ->
    ok' = true.
Proof.
  induction l as [|agent l IH]; intros res pos res' ok' pos' H.
  - injection H as _ <- _. reflexivity.
  - simpl in H. apply bind_Done_inv in H as ([[r1 ok1] p1] & Hstep & Hrest).
    apply bind_Done_inv in Hstep as ([[[a r] b] q] & _ & Hstep).
    injection Hstep as <- <- <-. rewrite orb_true_r in Hrest.
    eapply IH, Hrest.
Qed.

(** Whatever the agents do, a parsed request that is served is answered 200. *)
Lemma fastHandleAuctions_parsed_status (tape : nat -> Z)
    (req : option BidRequest) (w : World) (ctx : RequestCtx) (w' : World) :
  fastHandleAuctions tape (Unmarshalled req) w = Done (ctx, w') ->
  StatusCode ctx = 200 /\ Body ctx <> None.
Proof.
  unfold fastHandleAuctions. intros H.
  apply bind_Done_inv in H as (ids & _ & H).
  destruct req as [r|]; [|discriminate].
  apply bind_Done_inv in H as ([[res' ok'] pos'] & Hloop & H).
  apply auction_loop_ok in Hloop as ->.
  injection H as <- _. split; [reflexivity | discriminate].
Qed.

(** C1 fails on the code.  The second scenario of the specification: the
    request [r1] and one agent whose external id, 99, matches nothing.  No
    bid is placed, and the handler answers 200 with the empty response as
    body instead of 204. *)
Theorem fastHandleAuctions_no_bid_answers_200 :
  fastHandleAuctions Sample.zeros (Unmarshalled (Some Sample.r1))
                     (Sample.world [Sample.agent99])
  = Done ({| StatusCode := 200;
             Header := [("Content-type", "application/json");
                        ("x-openrtb-version", "2.1")];
             Body := Some {| res_ID := "r1";
                             res_SeatBid := [ {| seat_Bid := [] |} ] |} |},
          {| agents := [Sample.agent99]; rand_pos := 0; incoming := 1 |}).
Proof. vm_compute. reflexivity. Qed.

(** ** The agent loop of the handler *)

Lemma add_bids_app (res : BidResponse) (new1 new2 : list Bid) :
  add_bids (add_bids res new1) new2 = add_bids res (new1 ++ new2).
Proof.
  destruct res as [id seats]. unfold add_bids. simpl.
  destruct seats as [|[bids] others]; simpl; [reflexivity|].
  rewrite <- app_assoc. reflexivity.
Qed.

Lemma add_bids_seats (res : BidResponse) (new : list Bid) :
  res_SeatBid res <> [] -> res_SeatBid (add_bids res new) <> [].
Proof.
  unfold add_bids. destruct (res_SeatBid res) eqn:Hs; [congruence|].
  intros _. discriminate.
Qed.

(** The pairs of bids that carry the extension of [agent]. *)
Lemma bid_pair_of_agent (agent : Agent) (new : list Bid) :
  (forall bid, bid ∈ new -> bid_Ext bid = bid_ext agent) ->
  map bid_pair new
  = map (fun id => (JNum (Go_float64 (ExternalId (Config agent))), id))
        (map bid_ImpID new).
Proof.
  induction new as [|b new IH]; intros Hall; [reflexivity|].
  simpl. f_equal.
  - unfold bid_pair, go_index. rewrite (Hall b) by apply list_elem_of_here.
    rewrite (proj2 (bid_ext_lookup agent)). reflexivity.
  - apply IH. intros bid Hin. apply Hall. apply list_elem_of_further, Hin.
Qed.

(** A completed run of the agent loop has only appended bids to the first
    seat of the response, and the pairs they stand for are the ones the
    index makes eligible. *)
Lemma auction_loop_spec (tape : nat -> Z) (req : BidRequest)
    (ids : gmap creativesKey json) (l : list Agent) :
  forall (res : BidResponse) (ok : bool) (pos : nat)
         (res' : BidResponse) (ok' : bool) (pos' : nat),
    res_SeatBid res <> [] ->
    foldM (auction_agent tape req ids) l (res, ok, pos) = Done (res', ok', pos') ->
    exists new : list Bid,
      res' = add_bids res new /\
      map bid_pair new = decided_pairs l req ids.
Proof.
  induction l as [|agent l IH]; intros res ok pos res' ok' pos' Hne H.
  - injection H as <- _ _. exists []. rewrite add_bids_nil. auto.
  - cbn [foldM] in H. apply bind_Done_inv in H as ([[r1 ok1] p1] & Hstep & Hrest).
    unfold auction_agent in Hstep.
    apply bind_Done_inv in Hstep as ([[[a r] b] q] & Hbid & Hstep).
    injection Hstep as <- <- <-.
    apply DoBid_spec in Hbid as (new1 & _ & _ & -> & _ & _ & Hm & Hall).
    apply IH in Hrest as (new2 & -> & Hp); [|apply add_bids_seats, Hne].
    exists (new1 ++ new2). split; [apply add_bids_app|].
    rewrite map_app, Hp. unfold decided_pairs. cbn [map concat]. f_equal.
    rewrite (bid_pair_of_agent agent new1), Hm, map_map; [reflexivity|].
    intros bid Hin. apply list_elem_of_lookup in Hin as [k Hk].
    destruct (Hall k bid Hk) as (_ & _ & He & _). exact He.
Qed.

(** C8.  The response the handler serialises is the one
    [emptyResponseWithOneSeat] made for the request with bids appended to
    its seat: it carries the request's identifier and exactly one seat. *)
Theorem fastHandleAuctions_response_shape (tape : nat -> Z) (req : BidRequest)
    (w : World) (ctx : RequestCtx) (w' : World) :
  fastHandleAuctions tape (Unmarshalled (Some req)) w = Done (ctx, w') ->
  seat0_bids (emptyResponseWithOneSeat req) = [] /\
  exists bids : list Bid,
    Body ctx = Some (add_bids (emptyResponseWithOneSeat req) bids) /\
    Body ctx = Some {| res_ID := req_ID req;
                       res_SeatBid := [ {| seat_Bid := bids |} ] |}.
Proof.
  unfold fastHandleAuctions. intros H. split; [reflexivity|].
  apply bind_Done_inv in H as (ids & _ & H).
  apply bind_Done_inv in H as ([[res' ok'] pos'] & Hloop & H).
  pose proof (auction_loop_ok _ _ _ _ _ _ _ _ _ Hloop) as ->.
  apply auction_loop_spec in Hloop as (new & -> & _); [|discriminate].
  injection H as <- _. exists new. split; reflexivity.
Qed.

Lemma fastHandleAuctions_response_shape_witness :
  seat0_bids (emptyResponseWithOneSeat Sample.r1) = [] /\
  exists bids : list Bid,
    Body {| StatusCode := 200;
            Header := [("Content-type", "application/json");
                       ("x-openrtb-version", "2.1")];
            Body := Some Sample.res_after_agent42 |}
      = Some (add_bids (emptyResponseWithOneSeat Sample.r1) bids) /\
    Body {| StatusCode := 200;
            Header := [("Content-type", "application/json");
                       ("x-openrtb-version", "2.1")];
            Body := Some Sample.res_after_agent42 |}
      = Some {| res_ID := req_ID Sample.r1;
                res_SeatBid := [ {| seat_Bid := bids |} ] |}.
Proof.
  apply (fastHandleAuctions_response_shape Sample.zeros Sample.r1
           (Sample.world [Sample.agent42]) _
           {| agents := [Sample.agent42]; rand_pos := 1; incoming := 1 |}).
  vm_compute. reflexivity.
Defined.

(** ** Decision determinism *)

(** C6, as amended.  Two runs of the agent loop over the same request, index
    and agent list that both complete place bids for the same (agent,
    impression) pairs, in the same order, whatever the random draws: the
    pairs are those the index makes eligible. *)
Theorem decision_pairs_deterministic (t1 t2 : nat -> Z) (l : list Agent)
    (req : BidRequest) (ids : gmap creativesKey json) (pos1 pos2 : nat)
    (pairs1 pairs2 : list (json * string)) :
  auction_pairs t1 l req ids pos1 = Done pairs1 ->
  auction_pairs t2 l req ids pos2 = Done pairs2 ->
  pairs1 = pairs2 /\ pairs1 = decided_pairs l req ids.
Proof.
  assert (Hrun : forall t pos pairs,
             auction_pairs t l req ids pos = Done pairs ->
             pairs = decided_pairs l req ids).
  { intros t pos pairs H. unfold auction_pairs in H.
    apply bind_Done_inv in H as ([[res' ok'] pos'] & Hloop & H).
    injection H as <-.
    apply auction_loop_spec in Hloop as (new & -> & Hp); [|discriminate].
    exact Hp. }
  intros H1 H2. apply Hrun in H1, H2. subst. auto.
Qed.

Lemma decision_pairs_deterministic_witness :
  [(JNum (Go_float64 42), "1")] = [(JNum (Go_float64 42), "1")] /\
  [(JNum (Go_float64 42), "1")]
    = decided_pairs [Sample.agent42; Sample.agent99] Sample.r1
                    (Sample.ids_of Sample.r1).
Proof.
  apply (decision_pairs_deterministic Sample.zeros Sample.ones
           [Sample.agent42; Sample.agent99] Sample.r1 (Sample.ids_of Sample.r1)
           0 5).
  - vm_compute. reflexivity.
  - vm_compute. reflexivity.
Defined.

(** C6, as stated, fails.  With candidates 0 and 7 and a single creative,
    the draw decides: on one tape the agent bids on the impression, on the
    other the run panics before any bid is placed. *)
Lemma decision_depends_on_draw :
  ~ (forall (t1 t2 : nat -> Z),
       auction_pairs t1 [Sample.agent42] Sample.r_mixed
                     (Sample.ids_of Sample.r_mixed) 0
       = auction_pairs t2 [Sample.agent42] Sample.r_mixed
                       (Sample.ids_of Sample.r_mixed) 0).
Proof.
  intros H. specialize (H Sample.zeros Sample.ones).
  vm_compute in H. discriminate H.
Qed.

(** ** Building the index *)

(** A loop whose body completes exactly on the elements that pass a test
    completes exactly on the lists whose elements all pass it. *)
Lemma foldM_Done_iff {A B : Type} (body : A -> B -> outcome A) (ok : B -> bool)
    (l : list B) :
  (forall a x, (exists a', body a x = Done a') <-> ok x = true) ->
  forall a, (exists a', foldM body l a = Done a') <-> forallb ok l = true.
Proof.
  intros Hbody. induction l as [|x l IH]; intros a; simpl.
  - split; eauto.
  - rewrite andb_true_iff. split.
    + intros [a' H]. apply bind_Done_inv in H as (a1 & Hx & Hl). split.
      * apply (Hbody a x). eauto.
      * apply (IH a1). eauto.
    + intros [Hx Hl]. apply (Hbody a x) in Hx as [a1 Hx]. rewrite Hx. simpl.
      apply (IH a1), Hl.
Qed.

Lemma externalIds_extID_Done_iff (imp : Impression)
    (ids : gmap creativesKey json) (extID : json) :
  (exists ids', externalIds_extID imp ids extID = Done ids')
  <-> extID_ok (imp_Ext imp) extID = true.
Proof.
  unfold externalIds_extID, extID_ok.
  destruct extID as [| |f| | |]; simpl;
    try (split; [intros [? H]; discriminate H | discriminate]).
  destruct (go_index (imp_Ext imp) "creative-ids") as [| | | | |m]; simpl;
    try (split; [intros [? H]; discriminate H | discriminate]).
  destruct (go_index m (Itoa (Go_int f))); simpl;
    try (split; [intros [? H]; discriminate H | discriminate]);
    split; eauto.
Qed.

Lemma externalIds_imp_Done_iff (ids : gmap creativesKey json) (imp : Impression) :
  (exists ids', externalIds_imp ids imp = Done ids') <-> imp_ext_ok imp = true.
Proof.
  unfold externalIds_imp, imp_ext_ok.
  destruct (go_index (imp_Ext imp) "external-ids") as [| | | |extIDs|]; simpl;
    try (split; [intros [? H]; discriminate H | discriminate]).
  apply foldM_Done_iff. intros a x. apply externalIds_extID_Done_iff.
Qed.

(** C3, as amended.  [externalIdsFromRequest] builds the index exactly when
    the extension data of every impression of the request is readable; an
    impression without an ["external-ids"] list, or listing an id that is
    not a number or for which ["creative-ids"] is missing, is not a mapping
    or has no entry, is not skipped: the call panics and no index is
    built. *)
Theorem externalIdsFromRequest_completes_iff (req : BidRequest) :
  (exists ids, externalIdsFromRequest (Some req) = Done ids)
  <-> forallb imp_ext_ok (req_Imp req) = true.
Proof.
  unfold externalIdsFromRequest. apply foldM_Done_iff.
  intros a x. apply externalIds_imp_Done_iff.
Qed.

(** C3, as stated, fails: an impression without extension data is not
    skipped.  The request with that impression does not yield the index of
    its readable part, it panics. *)
Lemma externalIdsFromRequest_bare_impression :
  imp_ext_ok {| imp_ID := "1"; imp_Ext := ∅ |} = false /\
  (exists ids, externalIdsFromRequest (Some (readable_part Sample.r_bare)) = Done ids) /\
  ~ (exists ids, externalIdsFromRequest (Some Sample.r_bare) = Done ids).
Proof.
  split; [reflexivity|]. split.
  - eexists. vm_compute. reflexivity.
  - intros [ids H]. vm_compute in H. discriminate H.
Qed.

(** ** When the loops complete *)

Lemma DoBid_imp_completes (tape : nat -> Z) (ids : gmap creativesKey json)
    (agent : Agent) (res : BidResponse) (pos : nat) (imp : Impression) :
  entry_ok agent (go_index ids (imp_ID imp, ExternalId (Config agent))) = true ->
  res_SeatBid res <> [] ->
  exists st', DoBid_imp tape ids (agent, res, pos) imp = Done st'.
Proof.
  intros Hok Hne. unfold DoBid_imp.
  destruct (go_index ids (imp_ID imp, ExternalId (Config agent)))
    as [| | | |l|]; try discriminate Hok; [eauto|].
  destruct l as [|x0 l0] eqn:El; [discriminate Hok|]. rewrite <- El in *.
  assert (Hlen : 0 < Z.of_nat (length l)) by (subst l; simpl; lia).
  cbn [as_slice bind]. unfold rand_Intn.
  destruct (Z.of_nat (length l) <=? 0) eqn:Hle; [lia|]. cbn [bind].
  pose proof (Z.mod_pos_bound (tape pos) _ Hlen) as Hm.
  destruct (lookup_lt_is_Some_2 l (Z.to_nat (tape pos mod Z.of_nat (length l))))
    as [picked Hp]; [lia|].
  rewrite (proj2 (slice_index_Done l _ picked)) by (split; [lia | exact Hp]).
  cbn [bind].
  assert (Hc : candidate_ok agent picked = true).
  { assert (Hall : forallb (candidate_ok agent) l = true) by (subst l; exact Hok).
    rewrite forallb_forall in Hall. apply Hall.
    apply list_elem_of_In, list_elem_of_lookup. eauto. }
  destruct picked as [| |f| | |]; try discriminate Hc. cbn [as_float64 bind].
  unfold candidate_ok in Hc. apply andb_true_iff in Hc as [H0 H1].
  destruct (lookup_lt_is_Some_2 (Creatives (Config agent)) (Z.to_nat (Go_int f)))
    as [c Hcr]; [lia|].
  rewrite (proj2 (slice_index_Done _ _ c)) by (split; [lia | exact Hcr]).
  cbn [bind]. unfold append_bid.
  destruct (res_SeatBid res); [congruence|]. cbn [bind]. eauto.
Qed.

Lemma DoBid_loop_completes (tape : nat -> Z) (ids : gmap creativesKey json)
    (imps : list Impression) :
  forall (agent : Agent) (res : BidResponse) (pos : nat),
    forallb (fun imp => entry_ok agent
                          (go_index ids (imp_ID imp, ExternalId (Config agent))))
            imps = true ->
    res_SeatBid res <> [] ->
    exists st', foldM (DoBid_imp tape ids) imps (agent, res, pos) = Done st'.
Proof.
  induction imps as [|imp imps IH]; intros agent res pos Hok Hne; [simpl; eauto|].
  cbn [forallb] in Hok. apply andb_true_iff in Hok as [Himp Hrest].
  destruct (DoBid_imp_completes tape ids agent res pos imp Himp Hne)
    as [[[a1 r1] p1] Hstep].
  cbn [foldM]. rewrite Hstep. cbn [bind].
  apply DoBid_imp_Done_inv in Hstep
    as [[_ Hst] | [_ (l & f & c & _ & _ & _ & _ & _ & _ & Hst)]];
    injection Hst as -> -> ->.
  - apply IH; assumption.
  - apply IH; [exact Hrest | apply add_bids_seats, Hne].
Qed.

(** With an index whose entries for the agent are all servable and a
    response that has a seat, [DoBid] completes on every tape. *)
Lemma DoBid_completes (tape : nat -> Z) (agent : Agent) (req : BidRequest)
    (res : BidResponse) (ids : gmap creativesKey json) (pos : nat) :
  index_ok ids req agent = true -> res_SeatBid res <> [] ->
  exists r, DoBid tape agent req res ids pos = Done r.
Proof.
  intros Hok Hne. unfold DoBid.
  destruct (DoBid_loop_completes tape ids (req_Imp req) agent res pos Hok Hne)
    as [[[a1 r1] p1] Hloop].
  rewrite Hloop. cbn [bind].
  apply DoBid_loop_spec in Hloop as (new & _ & -> & _).
  pose proof (add_bids_seats res new Hne) as Hs.
  destruct (res_SeatBid (add_bids res new)) as [|seat others] eqn:E; [congruence|].
  unfold slice_index. simpl. eauto.
Qed.

(** With an index servable for every agent, the agent loop completes on
    every tape, and the pairs that bid are the same on all of them. *)
Lemma auction_pairs_total (tape : nat -> Z) (l : list Agent) (req : BidRequest)
    (ids : gmap creativesKey json) (pos : nat) :
  forallb (index_ok ids req) l = true ->
  auction_pairs tape l req ids pos = Done (decided_pairs l req ids).
Proof.
  intros Hok.
  assert (Hrun : forall (res : BidResponse) (ok : bool) (p : nat),
             res_SeatBid res <> [] ->
             exists st', foldM (auction_agent tape req ids) l (res, ok, p) = Done st').
  { induction l as [|agent l IH]; intros res ok p Hne; [simpl; eauto|].
    cbn [forallb] in Hok. apply andb_true_iff in Hok as [Ha Hl].
    destruct (DoBid_completes tape agent req res ids p Ha Hne)
      as [[[[a1 r1] b1] p1] Hbid].
    cbn [foldM]. unfold auction_agent at 1. rewrite Hbid. cbn [bind].
    apply IH; [exact Hl|].
    apply DoBid_spec in Hbid as (new & _ & _ & -> & _). apply add_bids_seats, Hne. }
  unfold auction_pairs.
  destruct (Hrun (emptyResponseWithOneSeat req) true pos) as [[[res' ok'] pos'] Hloop];
    [discriminate|].
  rewrite Hloop. cbn [bind].
  apply auction_loop_spec in Hloop as (new & -> & Hp); [|discriminate].
  rewrite <- Hp. reflexivity.
Qed.

(** * Further properties of the code *)

(** ** The contents of the index *)

Lemma foldM_invariant {A B : Type} (body : A -> B -> outcome A) (I : A -> Prop)
    (l : list B) :
  (forall a x a', I a -> body a x = Done a' -> I a') ->
  forall a a', I a -> foldM body l a = Done a' -> I a'.
Proof.
  intros Hbody. induction l as [|x l IH]; intros a a' Ia H.
  - injection H as <-. exact Ia.
  - cbn [foldM] in H. apply bind_Done_inv in H as (a1 & Hx & Hl).
    eapply IH; [eapply Hbody; eauto | exact Hl].
Qed.

Lemma externalIds_extID_Done_inv (imp : Impression)
    (ids ids' : gmap creativesKey json) (extID : json) :
  externalIds_extID imp ids extID = Done ids' ->
  exists f : float64,
    extID = JNum f /\
    imp_entry imp (Go_int f) <> JNull /\
    ids' = <[(imp_ID imp, Go_int f) := imp_entry imp (Go_int f)]> ids.
Proof.
  unfold externalIds_extID, imp_entry. intros H.
  apply bind_Done_inv in H as (f & Hf & H).
  destruct extID; try discriminate Hf. injection Hf as ->.
  apply bind_Done_inv in H as (m & Hm & H).
  destruct (go_index (imp_Ext imp) "creative-ids"); try discriminate Hm.
  injection Hm as ->.
  apply bind_Done_inv in H as (c & Hc & H). injection H as <-.
  exists f. split; [reflexivity|].
  destruct (go_index m (Itoa (Go_int f))); try discriminate Hc;
    injection Hc as <-; split; (discriminate || reflexivity).
Qed.

Lemma externalIds_inner_lookup (imp : Impression) (extIDs : list json) :
  forall (ids ids' : gmap creativesKey json),
    foldM (externalIds_extID imp) extIDs ids = Done ids' ->
    forall (i : string) (e : Z),
      ids' !! (i, e)
      = if bool_decide (i = imp_ID imp) && lists extIDs e
        then Some (imp_entry imp e) else ids !! (i, e).
Proof.
  induction extIDs as [|x l IH]; intros ids ids' H i e.
  - injection H as <-. rewrite andb_false_r. reflexivity.
  - cbn [foldM] in H. apply bind_Done_inv in H as (ids1 & Hx & Hl).
    apply externalIds_extID_Done_inv in Hx as (f & -> & _ & ->).
    rewrite (IH _ _ Hl i e). cbn [lists existsb]. fold (lists l e).
    destruct (bool_decide (i = imp_ID imp)) eqn:Hi; cbn [andb].
    2:{ apply bool_decide_eq_false in Hi. apply lookup_insert_ne. congruence. }
    destruct (lists l e); [rewrite orb_true_r; reflexivity|].
    rewrite orb_false_r. apply bool_decide_eq_true in Hi as ->.
    case_bool_decide as He.
    + subst e. apply lookup_insert_eq.
    + apply lookup_insert_ne. congruence.
Qed.

Lemma externalIds_imp_lookup (imp : Impression)
    (ids ids' : gmap creativesKey json) :
  externalIds_imp ids imp = Done ids' ->
  forall (i : string) (e : Z),
    ids' !! (i, e)
    = if bool_decide (i = imp_ID imp) && imp_lists imp e
      then Some (imp_entry imp e) else ids !! (i, e).
Proof.
  unfold externalIds_imp, imp_lists. intros H i e.
  apply bind_Done_inv in H as (l & Hl & H).
  destruct (go_index (imp_Ext imp) "external-ids"); try discriminate Hl.
  injection Hl as ->. exact (externalIds_inner_lookup imp l ids ids' H i e).
Qed.

Lemma externalIds_outer_lookup (imps : list Impression) :
  forall (ids ids' : gmap creativesKey json),
    foldM externalIds_imp imps ids = Done ids' ->
    forall (i : string) (e : Z),
      ids' !! (i, e) = entry_after imps i e (ids !! (i, e)).
Proof.
  induction imps as [|imp imps IH]; intros ids ids' H i e.
  - injection H as <-. reflexivity.
  - cbn [foldM] in H. apply bind_Done_inv in H as (ids1 & Himp & Hrest).
    rewrite (IH _ _ Hrest i e). cbn [entry_after].
    rewrite (externalIds_imp_lookup imp ids ids1 Himp i e). reflexivity.
Qed.

(** X1.  The index a request yields is determined entry by entry: under
    [(i, e)] it holds the candidates of the last impression with id [i]
    whose ["external-ids"] name [e] (each id truncated to an integer), read
    from that impression's ["creative-ids"] under the decimal spelling of
    [e]; it holds nothing under a pair no impression names. *)
Theorem externalIdsFromRequest_lookup (req : BidRequest)
    (ids : gmap creativesKey json) :
  externalIdsFromRequest (Some req) = Done ids ->
  forall (i : string) (e : Z),
    ids !! (i, e) = entry_after (req_Imp req) i e None.
Proof.
  unfold externalIdsFromRequest. intros H i e.
  rewrite (externalIds_outer_lookup _ _ _ H i e). rewrite lookup_empty. reflexivity.
Qed.

Lemma externalIdsFromRequest_lookup_witness :
  Sample.ids_of Sample.r1 !! ("1", 42) = entry_after (req_Imp Sample.r1) "1" 42 None.
Proof.
  apply (externalIdsFromRequest_lookup Sample.r1 (Sample.ids_of Sample.r1)).
  vm_compute. reflexivity.
Defined.

Lemma index_entries_not_nil (req : BidRequest) (ids : gmap creativesKey json) :
  externalIdsFromRequest (Some req) = Done ids ->
  forall (k : creativesKey) (v : json), ids !! k = Some v -> v <> JNull.
Proof.
  unfold externalIdsFromRequest.
  apply (foldM_invariant externalIds_imp
           (fun m : gmap creativesKey json =>
              forall k v, m !! k = Some v -> v <> JNull)).
  - intros a imp a' Ia Himp. unfold externalIds_imp in Himp.
    apply bind_Done_inv in Himp as (l & _ & Hl). revert Hl.
    apply (foldM_invariant (externalIds_extID imp)
             (fun m : gmap creativesKey json =>
                forall k v, m !! k = Some v -> v <> JNull)); [|exact Ia].
    intros b x b' Ib Hx k v.
    apply externalIds_extID_Done_inv in Hx as (f & _ & Hne & ->).
    destruct (decide ((imp_ID imp, Go_int f) = k)) as [<-|Hk].
    + rewrite lookup_insert_eq. intros [= <-]. exact Hne.
    + rewrite lookup_insert_ne by exact Hk. apply Ib.
  - intros k v Hk. rewrite lookup_empty in Hk. discriminate Hk.
Qed.

(** X2.  No entry of a built index is nil: the test [ids[key] == nil] of
    [DoBid] is true exactly for the keys the index does not have. *)
Theorem externalIdsFromRequest_no_nil_entry (req : BidRequest)
    (ids : gmap creativesKey json) :
  externalIdsFromRequest (Some req) = Done ids ->
  forall (k : creativesKey),
    (forall v, ids !! k = Some v -> v <> JNull) /\
    (go_index ids k = JNull <-> ids !! k = None).
Proof.
  intros H k. pose proof (index_entries_not_nil req ids H k) as Hinv.
  split; [exact Hinv|].
  unfold go_index. destruct (ids !! k) as [v|] eqn:Hk; simpl.
  - split; [|discriminate]. intros ->. exfalso. exact (Hinv JNull eq_refl eq_refl).
  - split; reflexivity.
Qed.

Lemma externalIdsFromRequest_no_nil_entry_witness :
  (forall v, Sample.ids_of Sample.r1 !! ("1", 42) = Some v -> v <> JNull) /\
  (go_index (Sample.ids_of Sample.r1) ("1", 42) = JNull
   <-> Sample.ids_of Sample.r1 !! ("1", 42) = None).
Proof.
  apply (externalIdsFromRequest_no_nil_entry Sample.r1 (Sample.ids_of Sample.r1)).
  vm_compute. reflexivity.
Defined.

Lemma entry_after_app (l1 l2 : list Impression) (i : string) (e : Z)
    (acc : option json) :
  entry_after (l1 ++ l2) i e acc = entry_after l2 i e (entry_after l1 i e acc).
Proof.
  revert acc. induction l1 as [|imp l1 IH]; intros acc; [reflexivity|].
  cbn [app entry_after]. apply IH.
Qed.

Lemma entry_after_unnamed (imps : list Impression) (i : string) (e : Z)
    (acc : option json) :
  (forall imp, imp ∈ imps -> imp_ID imp = i -> imp_lists imp e = false) ->
  entry_after imps i e acc = acc.
Proof.
  revert acc. induction imps as [|imp imps IH]; intros acc H; [reflexivity|].
  cbn [entry_after]. rewrite IH.
  - case_bool_decide as Hi; [|reflexivity].
    rewrite (H imp (list_elem_of_here _ _)) by congruence. reflexivity.
  - intros imp' Hin. apply H. apply list_elem_of_further, Hin.
Qed.

Lemma entry_after_is_Some (imps : list Impression) (i : string) (e : Z)
    (acc : option json) :
  is_Some (entry_after imps i e acc) <->
  is_Some acc \/
  exists imp, imp ∈ imps /\ imp_ID imp = i /\ imp_lists imp e = true.
Proof.
  revert acc. induction imps as [|imp imps IH]; intros acc; cbn [entry_after].
  - split; [auto|]. intros [H | (imp & Hin & _)]; [exact H|].
    apply not_elem_of_nil in Hin. destruct Hin.
  - rewrite IH. split.
    + intros [Hacc | (imp' & Hin & Hid & Hl)].
      * case_bool_decide as Hi; [|auto].
        destruct (imp_lists imp e) eqn:Hl; [|auto].
        right. exists imp. split; [apply list_elem_of_here | auto].
      * right. exists imp'. split; [apply list_elem_of_further, Hin | auto].
    + intros [Hacc | (imp' & Hin & Hid & Hl)].
      * left. destruct (bool_decide (i = imp_ID imp) && imp_lists imp e); eauto.
      * apply elem_of_cons in Hin as [-> | Hin].
        -- left. rewrite Hl, bool_decide_eq_true_2 by congruence. simpl. eauto.
        -- right. eauto.
Qed.

(** X3.  A built index has an entry under [(i, e)] exactly when some
    impression of the request has id [i] and names [e] among its external
    ids. *)
Theorem externalIdsFromRequest_has_entry (req : BidRequest)
    (ids : gmap creativesKey json) :
  externalIdsFromRequest (Some req) = Done ids ->
  forall (i : string) (e : Z),
    is_Some (ids !! (i, e)) <->
    exists imp, imp ∈ req_Imp req /\ imp_ID imp = i /\ imp_lists imp e = true.
Proof.
  unfold externalIdsFromRequest. intros H i e.
  rewrite (externalIds_outer_lookup _ _ _ H i e), lookup_empty.
  rewrite entry_after_is_Some. split; [|auto].
  intros [[x Hx] | Himp]; [discriminate Hx | exact Himp].
Qed.

Lemma externalIdsFromRequest_has_entry_witness :
  is_Some (Sample.ids_of Sample.r1 !! ("1", 42)) <->
  exists imp, imp ∈ req_Imp Sample.r1 /\ imp_ID imp = "1" /\ imp_lists imp 42 = true.
Proof.
  apply (externalIdsFromRequest_has_entry Sample.r1 (Sample.ids_of Sample.r1)).
  vm_compute. reflexivity.
Defined.

(** X4.  When several impressions share an id, the last one that names an
    external id decides its entry: the candidates of an impression are found
    in the index unless a later impression with the same id names the same
    external id.  With pairwise distinct impression ids every impression's
    candidates are found. *)
Theorem externalIdsFromRequest_last_impression_wins (req : BidRequest)
    (ids : gmap creativesKey json) (pre post : list Impression)
    (imp : Impression) (e : Z) :
  externalIdsFromRequest (Some req) = Done ids ->
  req_Imp req = pre ++ imp :: post ->
  imp_lists imp e = true ->
  (forall imp', imp' ∈ post -> imp_ID imp' = imp_ID imp -> imp_lists imp' e = false) ->
  ids !! (imp_ID imp, e) = Some (imp_entry imp e).
Proof.
  unfold externalIdsFromRequest. intros H Hreq Hl Hpost.
  rewrite (externalIds_outer_lookup _ _ _ H), Hreq, entry_after_app.
  cbn [entry_after]. rewrite Hl, bool_decide_eq_true_2 by reflexivity.
  cbn [andb]. apply entry_after_unnamed, Hpost.
Qed.

Lemma externalIdsFromRequest_last_impression_wins_witness :
  Sample.ids_of Sample.r1 !! (imp_ID (Sample.imp "1" [JNum (Go_float64 0)]), 42)
  = Some (imp_entry (Sample.imp "1" [JNum (Go_float64 0)]) 42).
Proof.
  apply (externalIdsFromRequest_last_impression_wins Sample.r1
           (Sample.ids_of Sample.r1) [] []).
  - vm_compute. reflexivity.
  - reflexivity.
  - vm_compute. reflexivity.
  - intros imp' Hin. apply not_elem_of_nil in Hin. destruct Hin.
Defined.

(** ** How the index steers [DoBid] *)

(** X5.  Over a built index, [DoBid] treats an impression as eligible for
    an agent exactly when some impression of the request with the same id
    names the agent's external id. *)
Theorem eligible_iff_listed (req : BidRequest) (ids : gmap creativesKey json)
    (agent : Agent) (imp : Impression) :
  externalIdsFromRequest (Some req) = Done ids ->
  (eligible ids agent imp = true <->
   exists imp', imp' ∈ req_Imp req /\ imp_ID imp' = imp_ID imp /\
                imp_lists imp' (ExternalId (Config agent)) = true).
Proof.
  intros H.
  assert (Hsome : is_Some (ids !! (imp_ID imp, ExternalId (Config agent))) <->
                  exists imp', imp' ∈ req_Imp req /\ imp_ID imp' = imp_ID imp /\
                               imp_lists imp' (ExternalId (Config agent)) = true).
  { unfold externalIdsFromRequest in H.
    rewrite (externalIds_outer_lookup _ _ _ H), lookup_empty, entry_after_is_Some.
    split; [|auto]. intros [[x Hx] | Himp]; [discriminate Hx | exact Himp]. }
  rewrite <- Hsome. unfold eligible, go_index.
  destruct (ids !! (imp_ID imp, ExternalId (Config agent))) as [v|] eqn:Hk; simpl.
  - split; [eauto|]. intros _.
    destruct v; try reflexivity. exfalso.
    exact (index_entries_not_nil req ids H _ _ Hk eq_refl).
  - split; [discriminate|]. intros [x Hx]. discriminate Hx.
Qed.

Lemma eligible_iff_listed_witness :
  eligible (Sample.ids_of Sample.r1) Sample.agent42
           (Sample.imp "1" [JNum (Go_float64 0)]) = true <->
  exists imp', imp' ∈ req_Imp Sample.r1 /\
               imp_ID imp' = imp_ID (Sample.imp "1" [JNum (Go_float64 0)]) /\
               imp_lists imp' (ExternalId (Config Sample.agent42)) = true.
Proof.
  apply (eligible_iff_listed Sample.r1 (Sample.ids_of Sample.r1)).
  vm_compute. reflexivity.
Defined.


(** ** [DoBid]: edges and counts *)

Lemma DoBid_loop_skip_all (tape : nat -> Z) (ids : gmap creativesKey json)
    (agent : Agent) (res : BidResponse) (pos : nat) (imps : list Impression) :
  (forall imp, imp ∈ imps -> eligible ids agent imp = false) ->
  foldM (DoBid_imp tape ids) imps (agent, res, pos) = Done (agent, res, pos).
Proof.
  induction imps as [|imp imps IH]; intros H; [reflexivity|].
  cbn [foldM]. rewrite DoBid_imp_skip by apply H, list_elem_of_here.
  cbn [bind]. apply IH. intros imp' Hin. apply H, list_elem_of_further, Hin.
Qed.

Lemma DoBid_skip_all (tape : nat -> Z) (agent : Agent) (req : BidRequest)
    (res : BidResponse) (ids : gmap creativesKey json) (pos : nat) :
  (forall imp, imp ∈ req_Imp req -> eligible ids agent imp = false) ->
  DoBid tape agent req res ids pos
  = match res_SeatBid res with
    | [] => Panic IndexOutOfRange
    | seat :: _ => Done (agent, res, 0 <? Z.of_nat (length (seat_Bid seat)), pos)
    end.
Proof.
  intros H. unfold DoBid. rewrite DoBid_loop_skip_all by exact H. cbn [bind].
  destruct (res_SeatBid res) as [|seat others]; reflexivity.
Qed.

(** X6.  When the index holds no entry for the agent on any impression of
    the request (in particular on a request without impressions), [DoBid]
    draws nothing and changes neither the agent nor the response; its flag
    tells whether the seat already held a bid.  On a response without a seat
    it panics even so. *)
Theorem DoBid_nothing_eligible (tape : nat -> Z) (agent : Agent)
    (req : BidRequest) (res : BidResponse) (ids : gmap creativesKey json)
    (pos : nat) :
  (forall imp, imp ∈ req_Imp req -> eligible ids agent imp = false) ->
  DoBid tape agent req res ids pos
  = match res_SeatBid res with
    | [] => Panic IndexOutOfRange
    | seat :: _ => Done (agent, res, 0 <? Z.of_nat (length (seat_Bid seat)), pos)
    end.
Proof. apply DoBid_skip_all. Qed.

Lemma DoBid_nothing_eligible_witness :
  DoBid Sample.zeros Sample.agent99 Sample.r1 Sample.res_after_agent42
        (Sample.ids_of Sample.r1) 0
  = match res_SeatBid Sample.res_after_agent42 with
    | [] => Panic IndexOutOfRange
    | seat :: _ =>
        Done (Sample.agent99, Sample.res_after_agent42,
              0 <? Z.of_nat (length (seat_Bid seat)), 0%nat)
    end.
Proof.
  apply (DoBid_nothing_eligible Sample.zeros Sample.agent99 Sample.r1
           Sample.res_after_agent42 (Sample.ids_of Sample.r1) 0).
  intros imp Hin. apply list_elem_of_singleton in Hin as ->.
  vm_compute. reflexivity.
Defined.

(** X7.  An agent whose external id no impression of the request names
    places no bid in the round: over the index of that request and the
    response made for it, [DoBid] returns the agent and the empty response
    unchanged, with the flag [false] and no draw made. *)
Theorem DoBid_unlisted_agent (tape : nat -> Z) (agent : Agent)
    (req : BidRequest) (ids : gmap creativesKey json) (pos : nat) :
  externalIdsFromRequest (Some req) = Done ids ->
  (forall imp, imp ∈ req_Imp req ->
               imp_lists imp (ExternalId (Config agent)) = false) ->
  DoBid tape agent req (emptyResponseWithOneSeat req) ids pos
  = Done (agent, emptyResponseWithOneSeat req, false, pos).
Proof.
  intros H Hun. rewrite DoBid_skip_all; [reflexivity|].
  intros imp Hin. unfold eligible, go_index.
  unfold externalIdsFromRequest in H.
  rewrite (externalIds_outer_lookup _ _ _ H), lookup_empty.
  rewrite entry_after_unnamed; [reflexivity|].
  intros imp' Hin' _. apply Hun, Hin'.
Qed.

Lemma DoBid_unlisted_agent_witness :
  DoBid Sample.ones Sample.agent99 Sample.r1
        (emptyResponseWithOneSeat Sample.r1) (Sample.ids_of Sample.r1) 3
  = Done (Sample.agent99, emptyResponseWithOneSeat Sample.r1, false, 3%nat).
Proof.
  apply (DoBid_unlisted_agent Sample.ones Sample.agent99 Sample.r1
           (Sample.ids_of Sample.r1) 3).
  - vm_compute. reflexivity.
  - intros imp Hin. apply list_elem_of_singleton in Hin as ->.
    vm_compute. reflexivity.
Defined.

(** X8.  [DoBid] never completes on a response that has no seat, whatever
    the request and the index: it panics. *)
Theorem DoBid_needs_a_seat (tape : nat -> Z) (agent : Agent) (req : BidRequest)
    (res : BidResponse) (ids : gmap creativesKey json) (pos : nat) :
  res_SeatBid res = [] ->
  exists p, DoBid tape agent req res ids pos = Panic p.
Proof.
  intros Hs. destruct (DoBid tape agent req res ids pos)
    as [[[[a r] b] q]|p] eqn:H; [|eauto].
  apply DoBid_spec in H as (new & Hne & _). congruence.
Qed.

Lemma DoBid_needs_a_seat_witness :
  exists p, DoBid Sample.zeros Sample.agent42 Sample.r1
                  {| res_ID := "r1"; res_SeatBid := [] |}
                  (Sample.ids_of Sample.r1) 0 = Panic p.
Proof.
  apply (DoBid_needs_a_seat Sample.zeros Sample.agent42 Sample.r1
           {| res_ID := "r1"; res_SeatBid := [] |} (Sample.ids_of Sample.r1) 0).
  reflexivity.
Defined.

(** X9.  A completed [DoBid] has placed exactly one bid and made exactly one
    random draw per eligible impression, so at most one per impression of
    the request. *)
Theorem DoBid_counts (tape : nat -> Z) (agent : Agent) (req : BidRequest)
    (res : BidResponse) (ids : gmap creativesKey json) (pos : nat)
    (agent' : Agent) (res' : BidResponse) (b : bool) (pos' : nat) :
  DoBid tape agent req res ids pos = Done (agent', res', b, pos') ->
  let n := length (List.filter (eligible ids agent) (req_Imp req)) in
  length (seat0_bids res') = (length (seat0_bids res) + n)%nat /\
  pos' = (pos + n)%nat /\
  (n <= length (req_Imp req))%nat.
Proof.
  intros H n. apply DoBid_spec in H as (new & Hne & _ & -> & -> & _ & Hm & _).
  assert (Hn : length new = n).
  { unfold n. rewrite <- (length_map imp_ID), <- Hm. symmetry. apply length_map. }
  rewrite seat0_bids_add by exact Hne. rewrite length_app, Hn.
  conjs; try reflexivity. unfold n. apply List.filter_length_le.
Qed.

Lemma DoBid_counts_witness :
  let n := length (List.filter (eligible (Sample.ids_of Sample.r1) Sample.agent42)
                               (req_Imp Sample.r1)) in
  length (seat0_bids Sample.res_after_agent42)
  = (length (seat0_bids (emptyResponseWithOneSeat Sample.r1)) + n)%nat /\
  1%nat = (0 + n)%nat /\
  (n <= length (req_Imp Sample.r1))%nat.
Proof.
  apply (DoBid_counts Sample.zeros Sample.agent42 Sample.r1
           (emptyResponseWithOneSeat Sample.r1) (Sample.ids_of Sample.r1) 0
           (set_bidId 1 Sample.agent42) Sample.res_after_agent42 true 1).
  vm_compute. reflexivity.
Defined.

(** ** Bid identifiers *)

Lemma int_wrap_in_range (z : Z) : min_int <= z <= max_int -> int_wrap z = z.
Proof.
  unfold int_wrap, min_int, max_int. intros H.
  rewrite Z.mod_small by lia. lia.
Qed.

Lemma counter_after_no_wrap (k : nat) (c : Z) :
  min_int <= c -> c + Z.of_nat k <= max_int ->
  counter_after k c = c + Z.of_nat k.
Proof.
  intros Hlo. induction k as [|k IH]; intros Hhi.
  - simpl. lia.
  - change (counter_after (S k) c) with (int_wrap (counter_after k c + 1)).
    rewrite IH by lia. rewrite int_wrap_in_range by lia. lia.
Qed.

Lemma map_lookup {A B : Type} (f : A -> B) (l : list A) (i : nat) :
  map f l !! i = f <$> l !! i.
Proof.
  revert i. induction l as [|x l IH]; intros [|i]; simpl; auto.
Qed.

(** X10.  As long as the counter does not reach the end of the range of
    [int], the bids of one call carry consecutive identifiers: the [k]-th bid
    placed has the decimal spelling of the agent's counter plus [k], the
    counter ends advanced by the number of bids, and no two bids of the call
    share an identifier. *)
Theorem DoBid_identifiers (tape : nat -> Z) (agent : Agent) (req : BidRequest)
    (res : BidResponse) (ids : gmap creativesKey json) (pos : nat)
    (agent' : Agent) (res' : BidResponse) (b : bool) (pos' : nat) :
  min_int <= bidId agent ->
  bidId agent + Z.of_nat (length (req_Imp req)) <= max_int ->
  DoBid tape agent req res ids pos = Done (agent', res', b, pos') ->
  exists new : list Bid,
    seat0_bids res' = seat0_bids res ++ new /\
    (forall (k : nat) (bid : Bid),
       new !! k = Some bid -> bid_ID bid = Itoa (bidId agent + Z.of_nat k)) /\
    bidId agent' = bidId agent + Z.of_nat (length new) /\
    NoDup (map bid_ID new).
Proof.
  intros Hlo Hhi H.
  apply DoBid_spec in H as (new & Hne & -> & -> & _ & _ & Hm & Hall).
  assert (Hlen : (length new <= length (req_Imp req))%nat).
  { rewrite <- (length_map bid_ImpID), Hm, length_map. apply List.filter_length_le. }
  assert (Hid : forall k bid, new !! k = Some bid ->
                              bid_ID bid = Itoa (bidId agent + Z.of_nat k)).
  { intros k bid Hk. destruct (Hall k bid Hk) as (-> & _).
    apply lookup_lt_Some in Hk.
    rewrite counter_after_no_wrap by lia. reflexivity. }
  exists new. conjs.
  - apply seat0_bids_add, Hne.
  - exact Hid.
  - cbn [bidId set_bidId]. apply counter_after_no_wrap; lia.
  - apply NoDup_alt. intros i j x Hi Hj.
    rewrite map_lookup in Hi, Hj.
    destruct (new !! i) as [bi|] eqn:Ei; [|discriminate Hi].
    destruct (new !! j) as [bj|] eqn:Ej; [|discriminate Hj].
    injection Hi as <-. injection Hj as Hj.
    rewrite (Hid i bi Ei), (Hid j bj Ej) in Hj.
    unfold Itoa in Hj. apply (inj pretty) in Hj. lia.
Qed.

Lemma DoBid_identifiers_witness :
  exists new : list Bid,
    seat0_bids Sample.res_after_agent42
      = seat0_bids (emptyResponseWithOneSeat Sample.r1) ++ new /\
    (forall (k : nat) (bid : Bid),
       new !! k = Some bid ->
       bid_ID bid = Itoa (bidId Sample.agent42 + Z.of_nat k)) /\
    bidId (set_bidId 1 Sample.agent42)
      = bidId Sample.agent42 + Z.of_nat (length new) /\
    NoDup (map bid_ID new).
Proof.
  apply (DoBid_identifiers Sample.zeros Sample.agent42 Sample.r1
           (emptyResponseWithOneSeat Sample.r1) (Sample.ids_of Sample.r1) 0
           (set_bidId 1 Sample.agent42) Sample.res_after_agent42 true 1).
  - vm_compute. discriminate.
  - vm_compute. discriminate.
  - vm_compute. reflexivity.
Defined.

(** X11.  [DoBid] touches nothing but the agent's counter and the bids of
    the first seat: every other field of the agent, the identifier of the
    response, its further seats and the bids already in the first seat are
    as before. *)
Theorem DoBid_frame (tape : nat -> Z) (agent : Agent) (req : BidRequest)
    (res : BidResponse) (ids : gmap creativesKey json) (pos : nat)
    (agent' : Agent) (res' : BidResponse) (b : bool) (pos' : nat) :
  DoBid tape agent req res ids pos = Done (agent', res', b, pos') ->
  agent' = set_bidId (bidId agent') agent /\
  res_ID res' = res_ID res /\
  tail (res_SeatBid res') = tail (res_SeatBid res) /\
  take (length (seat0_bids res)) (seat0_bids res') = seat0_bids res.
Proof.
  intros H. apply DoBid_spec in H as (new & Hne & -> & -> & _).
  conjs.
  - reflexivity.
  - unfold add_bids. destruct (res_SeatBid res); reflexivity.
  - unfold add_bids. destruct (res_SeatBid res) eqn:Hs; [congruence | reflexivity].
  - rewrite seat0_bids_add by exact Hne. apply take_app_length.
Qed.

Lemma DoBid_frame_witness :
  set_bidId 1 Sample.agent42
    = set_bidId (bidId (set_bidId 1 Sample.agent42)) Sample.agent42 /\
  res_ID Sample.res_after_agent42 = res_ID (emptyResponseWithOneSeat Sample.r1) /\
  tail (res_SeatBid Sample.res_after_agent42)
    = tail (res_SeatBid (emptyResponseWithOneSeat Sample.r1)) /\
  take (length (seat0_bids (emptyResponseWithOneSeat Sample.r1)))
       (seat0_bids Sample.res_after_agent42)
    = seat0_bids (emptyResponseWithOneSeat Sample.r1).
Proof.
  apply (DoBid_frame Sample.zeros Sample.agent42 Sample.r1
           (emptyResponseWithOneSeat Sample.r1) (Sample.ids_of Sample.r1) 0
           (set_bidId 1 Sample.agent42) Sample.res_after_agent42 true 1).
  vm_compute. reflexivity.
Defined.

(** ** The handler on a parsed request *)

Lemma auction_loop_groups (tape : nat -> Z) (req : BidRequest)
    (ids : gmap creativesKey json) (l : list Agent) :
  forall (res : BidResponse) (ok : bool) (pos : nat)
         (res' : BidResponse) (ok' : bool) (pos' : nat),
    res_SeatBid res <> [] ->
    foldM (auction_agent tape req ids) l (res, ok, pos) = Done (res', ok', pos') ->
    exists groups : list (list Bid),
      Forall2 (agent_bids ids req) l groups /\
      res' = add_bids res (concat groups) /\
      pos' = (pos + length (concat groups))%nat.
Proof.
  induction l as [|agent l IH]; intros res ok pos res' ok' pos' Hne H.
  - injection H as <- _ <-. exists []. cbn [concat length].
    rewrite add_bids_nil. conjs; [constructor | reflexivity | lia].
  - cbn [foldM] in H. apply bind_Done_inv in H as ([[r1 ok1] p1] & Hstep & Hrest).
    unfold auction_agent in Hstep.
    apply bind_Done_inv in Hstep as ([[[a r] b] q] & Hbid & Hstep).
    injection Hstep as <- <- <-.
    apply DoBid_spec in Hbid as (new & _ & _ & -> & -> & _ & Hm & Hall).
    apply IH in Hrest as (groups & HF & -> & ->); [|apply add_bids_seats, Hne].
    exists (new :: groups). cbn [concat]. conjs.
    + constructor; [split; assumption | exact HF].
    + apply add_bids_app.
    + rewrite length_app. lia.
Qed.

Lemma fastHandleAuctions_parsed_inv (tape : nat -> Z) (req : BidRequest)
    (w : World) (ctx : RequestCtx) (w' : World) :
  fastHandleAuctions tape (Unmarshalled (Some req)) w = Done (ctx, w') ->
  exists (ids : gmap creativesKey json) (groups : list (list Bid)),
    externalIdsFromRequest (Some req) = Done ids /\
    Forall2 (agent_bids ids req) (agents w) groups /\
    ctx = {| StatusCode := 200; Header := bid_headers;
             Body := Some {| res_ID := req_ID req;
                             res_SeatBid := [ {| seat_Bid := concat groups |} ] |} |} /\
    w' = {| agents := agents w;
            rand_pos := rand_pos w + length (concat groups);
            incoming := S (incoming w) |}.
Proof.
  unfold fastHandleAuctions. intros H.
  apply bind_Done_inv in H as (ids & Hids & H).
  apply bind_Done_inv in H as ([[res' ok'] pos'] & Hloop & H).
  pose proof (auction_loop_ok _ _ _ _ _ _ _ _ _ Hloop) as ->.
  apply auction_loop_groups in Hloop as (groups & HF & -> & ->); [|discriminate].
  injection H as <- <-. exists ids, groups. conjs; try assumption; reflexivity.
Qed.

(** X12.  What the handler does with a parsed request it serves: it answers
    200 with the two headers and a response that carries the request's
    identifier and one seat; the seat holds, agent after agent in
    configuration order, the bids each agent composes for its eligible
    impressions, every agent starting from the counter it is configured
    with.  The agents are left as they were (no counter advances from one
    request to the next), one event is counted, and one random draw is made
    per bid. *)
Theorem fastHandleAuctions_parsed (tape : nat -> Z) (req : BidRequest)
    (w : World) (ctx : RequestCtx) (w' : World) :
  fastHandleAuctions tape (Unmarshalled (Some req)) w = Done (ctx, w') ->
  exists (ids : gmap creativesKey json) (groups : list (list Bid)),
    externalIdsFromRequest (Some req) = Done ids /\
    Forall2 (agent_bids ids req) (agents w) groups /\
    ctx = {| StatusCode := 200; Header := bid_headers;
             Body := Some {| res_ID := req_ID req;
                             res_SeatBid := [ {| seat_Bid := concat groups |} ] |} |} /\
    w' = {| agents := agents w;
            rand_pos := rand_pos w + length (concat groups);
            incoming := S (incoming w) |}.
Proof. apply fastHandleAuctions_parsed_inv. Qed.

Lemma fastHandleAuctions_parsed_witness :
  exists (ids : gmap creativesKey json) (groups : list (list Bid)),
    externalIdsFromRequest (Some Sample.r1) = Done ids /\
    Forall2 (agent_bids ids Sample.r1)
            (agents (Sample.world [Sample.agent42; Sample.agent99])) groups /\
    {| StatusCode := 200; Header := bid_headers;
       Body := Some Sample.res_after_agent42 |}
    = {| StatusCode := 200; Header := bid_headers;
         Body := Some {| res_ID := req_ID Sample.r1;
                         res_SeatBid := [ {| seat_Bid := concat groups |} ] |} |} /\
    {| agents := [Sample.agent42; Sample.agent99]; rand_pos := 1; incoming := 1 |}
    = {| agents := agents (Sample.world [Sample.agent42; Sample.agent99]);
         rand_pos := rand_pos (Sample.world [Sample.agent42; Sample.agent99])
                     + length (concat groups);
         incoming := S (incoming (Sample.world [Sample.agent42; Sample.agent99])) |}.
Proof.
  apply (fastHandleAuctions_parsed Sample.zeros Sample.r1
           (Sample.world [Sample.agent42; Sample.agent99])).
  vm_compute. reflexivity.
Defined.

Lemma agent_bids_length (ids : gmap creativesKey json) (req : BidRequest)
    (agent : Agent) (g : list Bid) :
  agent_bids ids req agent g ->
  length g = length (List.filter (eligible ids agent) (req_Imp req)).
Proof.
  intros [Hm _]. rewrite <- (length_map bid_ImpID), Hm. apply length_map.
Qed.

Lemma groups_length (ids : gmap creativesKey json) (req : BidRequest)
    (l : list Agent) (groups : list (list Bid)) :
  Forall2 (agent_bids ids req) l groups ->
  (length (concat groups) <= length l * length (req_Imp req))%nat.
Proof.
  induction 1 as [|agent g l groups Hg _ IH]; [simpl; lia|].
  cbn [concat length]. rewrite length_app, (agent_bids_length _ _ _ _ Hg).
  pose proof (List.filter_length_le (eligible ids agent) (req_Imp req)). lia.
Qed.

(** X13.  With [M] configured agents and [N] impressions in the request,
    the response the handler serves holds at most [M * N] bids. *)
Theorem fastHandleAuctions_bid_count (tape : nat -> Z) (req : BidRequest)
    (w : World) (ctx : RequestCtx) (w' : World) :
  fastHandleAuctions tape (Unmarshalled (Some req)) w = Done (ctx, w') ->
  exists res : BidResponse,
    Body ctx = Some res /\
    (length (seat0_bids res) <= length (agents w) * length (req_Imp req))%nat.
Proof.
  intros H. apply fastHandleAuctions_parsed_inv in H as (ids & groups & _ & HF & -> & _).
  eexists. split; [reflexivity|]. cbn [seat0_bids res_SeatBid seat_Bid].
  exact (groups_length ids req _ _ HF).
Qed.

Lemma fastHandleAuctions_bid_count_witness :
  exists res : BidResponse,
    Body {| StatusCode := 200; Header := bid_headers;
            Body := Some Sample.res_after_agent42 |} = Some res /\
    (length (seat0_bids res)
     <= length (agents (Sample.world [Sample.agent42; Sample.agent99]))
        * length (req_Imp Sample.r1))%nat.
Proof.
  apply (fastHandleAuctions_bid_count Sample.zeros Sample.r1
           (Sample.world [Sample.agent42; Sample.agent99]) _
           {| agents := [Sample.agent42; Sample.agent99];
              rand_pos := 1; incoming := 1 |}).
  vm_compute. reflexivity.
Defined.

(** X14.  Every bid of a served response belongs to a configured agent: it
    is for an impression of the request, names the id of a creative of that
    agent's [Creatives] list, offers that agent's price and carries that
    agent's external id in its extension. *)
Theorem fastHandleAuctions_bids_are_valid (tape : nat -> Z) (req : BidRequest)
    (w : World) (ctx : RequestCtx) (w' : World) :
  fastHandleAuctions tape (Unmarshalled (Some req)) w = Done (ctx, w') ->
  exists res : BidResponse,
    Body ctx = Some res /\
    forall bid : Bid,
      bid ∈ seat0_bids res ->
      exists (agent : Agent) (creative : Creative),
        agent ∈ agents w /\
        creative ∈ Creatives (Config agent) /\
        bid_CreativeID bid = Itoa (Id creative) /\
        bid_Price bid = Price agent /\
        bid_Ext bid = bid_ext agent /\
        bid_ImpID bid ∈ map imp_ID (req_Imp req).
Proof.
  intros H. apply fastHandleAuctions_parsed_inv in H as (ids & groups & _ & HF & -> & _).
  eexists. split; [reflexivity|]. cbn [seat0_bids res_SeatBid seat_Bid].
  intros bid Hin. induction HF as [|agent g l groups [Hm Hall] _ IH].
  - cbn [concat] in Hin. apply not_elem_of_nil in Hin. destruct Hin.
  - cbn [concat] in Hin. apply elem_of_app in Hin as [Hin | Hin].
    + pose proof Hin as Hin'. apply list_elem_of_lookup in Hin' as [k Hk].
      destruct (Hall k bid Hk) as (_ & Hp & He & lc & f & c & _ & _ & _ & Hc & Hid).
      exists agent, c. conjs; try assumption.
      * apply list_elem_of_here.
      * apply list_elem_of_lookup. eauto.
      * assert (Hi : bid_ImpID bid ∈ map bid_ImpID g).
        { apply list_elem_of_In, in_map, list_elem_of_In, Hin. }
        rewrite Hm in Hi. apply list_elem_of_In in Hi. apply list_elem_of_In.
        apply in_map_iff in Hi as (imp & <- & Hf).
        apply filter_In in Hf as [Hf _]. apply in_map, Hf.
    + destruct (IH Hin) as (a & c & Ha & Hrest).
      exists a, c. split; [apply list_elem_of_further, Ha | exact Hrest].
Qed.

Lemma fastHandleAuctions_bids_are_valid_witness :
  exists res : BidResponse,
    Body {| StatusCode := 200; Header := bid_headers;
            Body := Some Sample.res_after_agent42 |} = Some res /\
    forall bid : Bid,
      bid ∈ seat0_bids res ->
      exists (agent : Agent) (creative : Creative),
        agent ∈ agents (Sample.world [Sample.agent42; Sample.agent99]) /\
        creative ∈ Creatives (Config agent) /\
        bid_CreativeID bid = Itoa (Id creative) /\
        bid_Price bid = Price agent /\
        bid_Ext bid = bid_ext agent /\
        bid_ImpID bid ∈ map imp_ID (req_Imp Sample.r1).
Proof.
  apply (fastHandleAuctions_bids_are_valid Sample.zeros Sample.r1
           (Sample.world [Sample.agent42; Sample.agent99]) _
           {| agents := [Sample.agent42; Sample.agent99];
              rand_pos := 1; incoming := 1 |}).
  vm_compute. reflexivity.
Defined.

Lemma foldM_Panic_kind {A B : Type} (body : A -> B -> outcome A) (q : panic)
    (l : list B) :
  (forall a x p, body a x = Panic p -> p = q) ->
  forall a p, foldM body l a = Panic p -> p = q.
Proof.
  intros Hbody. induction l as [|x l IH]; intros a p H; [discriminate H|].
  cbn [foldM] in H. destruct (body a x) as [a1|p1] eqn:Hx; cbn [bind] in H.
  - eapply IH, H.
  - injection H as <-. eapply Hbody, Hx.
Qed.

Lemma externalIdsFromRequest_Panic_kind (req : BidRequest) (p : panic) :
  externalIdsFromRequest (Some req) = Panic p -> p = InterfaceConversion.
Proof.
  unfold externalIdsFromRequest. apply foldM_Panic_kind.
  intros ids imp p1 H. unfold externalIds_imp in H.
  destruct (go_index (imp_Ext imp) "external-ids") as [| | | |l|];
    try (injection H as <-; reflexivity).
  cbn [as_slice bind] in H. revert H. apply foldM_Panic_kind.
  intros b x p2 H. unfold externalIds_extID in H.
  destruct x as [| |f| | |]; try (injection H as <-; reflexivity).
  cbn [as_float64 bind] in H.
  destruct (go_index (imp_Ext imp) "creative-ids") as [| | | | |m];
    try (injection H as <-; reflexivity).
  cbn [as_map bind] in H.
  destruct (go_index m (Itoa (Go_int f))); try discriminate H.
  injection H as <-. reflexivity.
Qed.

(** X15.  One impression with unreadable extension data makes the handler
    panic on the whole request, with a failed type assertion, before any
    agent is asked: whatever the agents and the random source, nothing is
    answered. *)
Theorem fastHandleAuctions_unreadable_impression (tape : nat -> Z)
    (req : BidRequest) (w : World) (imp : Impression) :
  imp ∈ req_Imp req -> imp_ext_ok imp = false ->
  fastHandleAuctions tape (Unmarshalled (Some req)) w = Panic InterfaceConversion.
Proof.
  intros Hin Hbad. unfold fastHandleAuctions.
  destruct (externalIdsFromRequest (Some req)) as [ids|p] eqn:H.
  - exfalso.
    assert (Hall : forallb imp_ext_ok (req_Imp req) = true).
    { unfold externalIdsFromRequest in H.
      apply (foldM_Done_iff externalIds_imp imp_ext_ok (req_Imp req)
               (fun a x => externalIds_imp_Done_iff a x) ∅). eauto. }
    rewrite forallb_forall in Hall.
    rewrite (Hall imp) in Hbad; [discriminate Hbad | apply list_elem_of_In, Hin].
  - apply externalIdsFromRequest_Panic_kind in H as ->. reflexivity.
Qed.

Lemma fastHandleAuctions_unreadable_impression_witness :
  fastHandleAuctions Sample.zeros (Unmarshalled (Some Sample.r_bare))
                     (Sample.world [Sample.agent42])
  = Panic InterfaceConversion.
Proof.
  apply (fastHandleAuctions_unreadable_impression Sample.zeros Sample.r_bare
           (Sample.world [Sample.agent42]) {| imp_ID := "1"; imp_Ext := ∅ |}).
  - apply list_elem_of_here.
  - reflexivity.
Defined.

Lemma auction_loop_completes (tape : nat -> Z) (req : BidRequest)
    (ids : gmap creativesKey json) (l : list Agent) :
  forallb (index_ok ids req) l = true ->
  forall (res : BidResponse) (ok : bool) (pos : nat),
    res_SeatBid res <> [] ->
    exists st', foldM (auction_agent tape req ids) l (res, ok, pos) = Done st'.
Proof.
  induction l as [|agent l IH]; intros Hok res ok pos Hne; [simpl; eauto|].
  cbn [forallb] in Hok. apply andb_true_iff in Hok as [Ha Hl].
  destruct (DoBid_completes tape agent req res ids pos Ha Hne)
    as [[[[a1 r1] b1] p1] Hbid].
  cbn [foldM]. unfold auction_agent at 1. rewrite Hbid. cbn [bind].
  apply IH; [exact Hl|].
  apply DoBid_spec in Hbid as (new & _ & _ & -> & _). apply add_bids_seats, Hne.
Qed.

(** X16.  A request whose index can be built and serves every configured
    agent (each entry for an agent is a non-empty list of numbers that index
    the agent's creatives) is answered on every random tape: the handler
    completes with status 200 and a body. *)
Theorem fastHandleAuctions_serves_valid_request (tape : nat -> Z)
    (req : BidRequest) (ids : gmap creativesKey json) (w : World) :
  externalIdsFromRequest (Some req) = Done ids ->
  forallb (index_ok ids req) (agents w) = true ->
  exists (ctx : RequestCtx) (w' : World),
    fastHandleAuctions tape (Unmarshalled (Some req)) w = Done (ctx, w') /\
    StatusCode ctx = 200 /\ Header ctx = bid_headers /\ is_Some (Body ctx).
Proof.
  intros Hids Hok. unfold fastHandleAuctions. rewrite Hids. cbn [bind].
  destruct (auction_loop_completes tape req ids (agents w) Hok
              (emptyResponseWithOneSeat req) true (rand_pos w))
    as [[[res' ok'] pos'] Hloop]; [discriminate|].
  rewrite Hloop. cbn [bind].
  apply auction_loop_ok in Hloop as ->.
  eexists _, _. split; [reflexivity|]. cbn. conjs; eauto.
Qed.

Lemma fastHandleAuctions_serves_valid_request_witness :
  exists (ctx : RequestCtx) (w' : World),
    fastHandleAuctions Sample.ones (Unmarshalled (Some Sample.r1))
                       (Sample.world [Sample.agent42; Sample.agent99])
    = Done (ctx, w') /\
    StatusCode ctx = 200 /\ Header ctx = bid_headers /\ is_Some (Body ctx).
Proof.
  apply (fastHandleAuctions_serves_valid_request Sample.ones Sample.r1
           (Sample.ids_of Sample.r1)
           (Sample.world [Sample.agent42; Sample.agent99])).
  - vm_compute. reflexivity.
  - vm_compute. reflexivity.
Defined.

Lemma identifiers_of_bids (g : list Bid) :
  forall c : Z,
    (forall k bid, g !! k = Some bid -> bid_ID bid = Itoa (counter_after k c)) ->
    map bid_ID g = identifiers_from c (length g).
Proof.
  induction g as [|b g IH]; intros c H; [reflexivity|].
  cbn [map length identifiers_from]. f_equal.
  - exact (H 0%nat b eq_refl).
  - apply IH. intros k bid Hk. rewrite counter_after_succ. exact (H (S k) bid Hk).
Qed.

Lemma groups_identifiers (ids : gmap creativesKey json) (req : BidRequest)
    (l : list Agent) (groups : list (list Bid)) :
  Forall2 (agent_bids ids req) l groups ->
  map bid_ID (concat groups)
  = concat (map (fun agent =>
                   identifiers_from (bidId agent)
                     (length (List.filter (eligible ids agent) (req_Imp req))))
                l).
Proof.
  induction 1 as [|agent g l groups Hg _ IH]; [reflexivity|].
  cbn [concat map]. rewrite map_app, IH. f_equal.
  rewrite <- (agent_bids_length _ _ _ _ Hg). apply identifiers_of_bids.
  intros k bid Hk. destruct Hg as [_ Hall].
  destruct (Hall k bid Hk) as (-> & _). reflexivity.
Qed.

(** X17.  Bid identifiers repeat from one request to the next: when the
    handler serves the same request twice in a row, the second response
    carries the same identifiers, bid for bid, as the first, whatever was
    drawn, because the counters the first round advanced were not kept. *)
Theorem fastHandleAuctions_identifiers_repeat (t1 t2 : nat -> Z)
    (req : BidRequest) (w w1 w2 : World) (ctx1 ctx2 : RequestCtx) :
  fastHandleAuctions t1 (Unmarshalled (Some req)) w = Done (ctx1, w1) ->
  fastHandleAuctions t2 (Unmarshalled (Some req)) w1 = Done (ctx2, w2) ->
  exists res1 res2 : BidResponse,
    Body ctx1 = Some res1 /\ Body ctx2 = Some res2 /\
    map bid_ID (seat0_bids res1) = map bid_ID (seat0_bids res2) /\
    map bid_ImpID (seat0_bids res1) = map bid_ImpID (seat0_bids res2).
Proof.
  intros H1 H2.
  apply fastHandleAuctions_parsed_inv in H1 as (ids & g1 & Hids & HF1 & -> & ->).
  apply fastHandleAuctions_parsed_inv in H2 as (ids2 & g2 & Hids2 & HF2 & -> & _).
  rewrite Hids in Hids2. injection Hids2 as <-. cbn [agents] in HF2.
  eexists _, _. conjs; try reflexivity; cbn [seat0_bids res_SeatBid seat_Bid].
  - rewrite (groups_identifiers _ _ _ _ HF1), (groups_identifiers _ _ _ _ HF2).
    reflexivity.
  - clear Hids. revert g2 HF2.
    induction HF1 as [|agent g l groups [Hm _] _ IH]; intros g2 HF2;
      inversion HF2 as [|? g' ? groups' [Hm' _] HF' E1 E2]; subst; [reflexivity|].
    cbn [concat]. rewrite !map_app, Hm, Hm'. f_equal. apply IH, HF'.
Qed.

Lemma fastHandleAuctions_identifiers_repeat_witness :
  exists res1 res2 : BidResponse,
    Body {| StatusCode := 200; Header := bid_headers;
            Body := Some Sample.res_after_agent42 |} = Some res1 /\
    Body {| StatusCode := 200; Header := bid_headers;
            Body := Some Sample.res_after_agent42 |} = Some res2 /\
    map bid_ID (seat0_bids res1) = map bid_ID (seat0_bids res2) /\
    map bid_ImpID (seat0_bids res1) = map bid_ImpID (seat0_bids res2).
Proof.
  apply (fastHandleAuctions_identifiers_repeat Sample.zeros Sample.ones Sample.r1
           (Sample.world [Sample.agent42])
           {| agents := [Sample.agent42]; rand_pos := 1; incoming := 1 |}
           {| agents := [Sample.agent42]; rand_pos := 2; incoming := 2 |}).
  - vm_compute. reflexivity.
  - vm_compute. reflexivity.
Defined.

(** ** Creative rotation *)

Lemma DoBid_imp_no_choice (t1 t2 : nat -> Z) (ids : gmap creativesKey json)
    (agent : Agent) (res : BidResponse) (pos : nat) (imp : Impression) :
  at_most_one_candidate (go_index ids (imp_ID imp, ExternalId (Config agent))) = true ->
  DoBid_imp t1 ids (agent, res, pos) imp = DoBid_imp t2 ids (agent, res, pos) imp.
Proof.
  intros H. unfold DoBid_imp.
  destruct (go_index ids (imp_ID imp, ExternalId (Config agent)))
    as [| | | |l|]; try reflexivity.
  destruct l as [|x [|y l]]; [reflexivity | | discriminate H].
  cbn [as_slice bind length]. unfold rand_Intn. cbn [Z.of_nat Z.leb Z.compare bind].
  rewrite !Z.mod_1_r. reflexivity.
Qed.

Lemma DoBid_loop_no_choice (t1 t2 : nat -> Z) (ids : gmap creativesKey json)
    (cfg : AgentConfig) (imps : list Impression) :
  (forall imp, imp ∈ imps ->
     at_most_one_candidate (go_index ids (imp_ID imp, ExternalId cfg)) = true) ->
  forall (agent : Agent) (res : BidResponse) (pos : nat),
    Config agent = cfg ->
    foldM (DoBid_imp t1 ids) imps (agent, res, pos)
    = foldM (DoBid_imp t2 ids) imps (agent, res, pos).
Proof.
  induction imps as [|imp imps IH]; intros H agent res pos Hc; [reflexivity|].
  cbn [foldM].
  rewrite (DoBid_imp_no_choice t1 t2 ids agent res pos imp)
    by (rewrite Hc; apply H, list_elem_of_here).
  destruct (DoBid_imp t2 ids (agent, res, pos) imp) as [[[a1 r1] p1]|p] eqn:Hstep;
    cbn [bind]; [|reflexivity].
  apply IH.
  - intros imp' Hin. apply H, list_elem_of_further, Hin.
  - apply DoBid_imp_Config in Hstep. cbn in Hstep. congruence.
Qed.

(** X18.  Rotation needs a choice: when no entry the index holds for the
    agent on the impressions of the request lists two or more candidates,
    [DoBid] does the same on every random tape, panic or result, bid for
    bid. *)
Theorem DoBid_no_choice (t1 t2 : nat -> Z) (agent : Agent) (req : BidRequest)
    (res : BidResponse) (ids : gmap creativesKey json) (pos : nat) :
  (forall imp, imp ∈ req_Imp req ->
     at_most_one_candidate
       (go_index ids (imp_ID imp, ExternalId (Config agent))) = true) ->
  DoBid t1 agent req res ids pos = DoBid t2 agent req res ids pos.
Proof.
  intros H. unfold DoBid.
  rewrite (DoBid_loop_no_choice t1 t2 ids (Config agent) (req_Imp req) H
             agent res pos eq_refl).
  reflexivity.
Qed.

Lemma DoBid_no_choice_witness :
  DoBid Sample.zeros Sample.agent42 Sample.r_seven
        (emptyResponseWithOneSeat Sample.r_seven) (Sample.ids_of Sample.r_seven) 0
  = DoBid Sample.ones Sample.agent42 Sample.r_seven
          (emptyResponseWithOneSeat Sample.r_seven) (Sample.ids_of Sample.r_seven) 0.
Proof.
  apply (DoBid_no_choice Sample.zeros Sample.ones Sample.agent42 Sample.r_seven
           (emptyResponseWithOneSeat Sample.r_seven)
           (Sample.ids_of Sample.r_seven) 0).
  intros imp Hin. apply list_elem_of_singleton in Hin as ->.
  vm_compute. reflexivity.
Defined.

(** ** Registration and pacing *)

(** X19.  A successful [UnregisterAgent] undoes [RegisterAgent] whether or
    not the registration went through: on an agent not yet registered, a
    registration whose request could be built, followed by an unregistration
    that is answered, gives back the agent as it was. *)
Theorem register_then_unregister (agent : Agent) (net : http_exchange) :
  registered agent = false ->
  net <> RequestInvalid ->
  (let* a := RegisterAgent agent net in UnregisterAgent a DoResponse) = Done agent.
Proof.
  intros Hr Hnet. destruct agent; cbn in Hr; subst.
  destruct net; [congruence | reflexivity | reflexivity].
Qed.

Lemma register_then_unregister_witness :
  (let* a := RegisterAgent Sample.agent42 DoResponse in
   UnregisterAgent a DoResponse) = Done Sample.agent42.
Proof.
  apply (register_then_unregister Sample.agent42 DoResponse).
  - reflexivity.
  - discriminate.
Defined.

(** X20.  [StartPacer] panics on an agent whose period is zero or negative
    (a configuration without a period among them), before any channel or
    task exists; for a positive period whose nanoseconds fit an [int64] it
    sets the ticker to that many milliseconds and gives the agent its stop
    channel, changing nothing else of the agent. *)
Theorem StartPacer_period (agent : Agent) (bankerIp : string) (bankerPort : Z)
    (ch : nat) :
  - max_period <= Period agent <= max_period ->
  match StartPacer agent bankerIp bankerPort ch with
  | NonPositiveInterval => Period agent <= 0
  | PacerStarted s =>
      0 < Period agent /\
      ticker_interval s = Period agent * Millisecond /\
      paced_agent s = set_pacer (Some ch) agent
  end.
Proof.
  intros H. unfold StartPacer.
  assert (Hw : int_wrap (Period agent * Millisecond) = Period agent * Millisecond).
  { apply int_wrap_in_range. unfold min_int, max_int, max_period, Millisecond in *. lia. }
  rewrite Hw. unfold Millisecond.
  destruct (Z.leb_spec (Period agent * 1000000) 0) as [Hle|Hlt].
  - lia.
  - cbn [ticker_interval paced_agent]. conjs; [lia | reflexivity | reflexivity].
Qed.

Lemma StartPacer_period_witness :
  match StartPacer Sample.agent42 "127.0.0.1" 9985 0 with
  | NonPositiveInterval => Period Sample.agent42 <= 0
  | PacerStarted s =>
      0 < Period Sample.agent42 /\
      ticker_interval s = Period Sample.agent42 * Millisecond /\
      paced_agent s = set_pacer (Some 0%nat) Sample.agent42
  end.
Proof.
  apply (StartPacer_period Sample.agent42 "127.0.0.1" 9985 0).
  vm_compute. split; discriminate.
Defined.

(** X21.  The stop channel is single-use: after [StartPacer] a first
    [StopPacer] closes the agent's channel, and a second one on the same
    agent panics on the closed channel. *)
Theorem StopPacer_single_use (agent : Agent) (bankerIp : string)
    (bankerPort : Z) (ch : nat) (s : pacer_setup) (closed : gset nat) :
  StartPacer agent bankerIp bankerPort ch = PacerStarted s ->
  ch ∉ closed ->
  StopPacer (paced_agent s) closed = PacerStopped ({[ch]} ∪ closed) /\
  StopPacer (paced_agent s) ({[ch]} ∪ closed) = CloseOfClosedChannel.
Proof.
  unfold StartPacer. intros H Hch.
  destruct (int_wrap (Period agent * Millisecond) <=? 0); [discriminate H|].
  injection H as <-. unfold StopPacer. cbn [paced_agent pacer set_pacer]. split.
  - rewrite bool_decide_eq_false_2 by exact Hch. reflexivity.
  - rewrite bool_decide_eq_true_2 by set_solver. reflexivity.
Qed.

Lemma StopPacer_single_use_witness :
  StopPacer (set_pacer (Some 0%nat) Sample.agent42) ∅ = PacerStopped ({[0%nat]} ∪ ∅) /\
  StopPacer (set_pacer (Some 0%nat) Sample.agent42) ({[0%nat]} ∪ ∅)
  = CloseOfClosedChannel.
Proof.
  apply (StopPacer_single_use Sample.agent42 "127.0.0.1" 9985 0
           {| paced_agent := set_pacer (Some 0%nat) Sample.agent42;
              ticker_interval := 30000 * Millisecond;
              pacing_url := "http://127.0.0.1:9985/v1/accounts/hello:world/balance";
              pacing_body := "{" +:+ dquote +:+ "USD/1M" +:+ dquote +:+ ": 1000000}" |}
           ∅).
  - vm_compute. reflexivity.
  - set_solver.
Defined.
